(** * Student Expenditure Tracker: the server's request handlers

    A shallow embedding of the Express server of the repository and of the
    client-side report document, with the properties the specification states
    about them.

    Sources embedded here:
    - [src/server/index.js]: the token gate [authenticateJWT], the PDF report
      handler and the insights handler that sends the first twenty
      transactions to the text provider (module [ServerIndex]).  As shipped
      the file declares [const cors] twice (lines 3 and 154), which Node
      refuses when it loads the file; the handlers are embedded as they are
      written, that is, as they run once the second declaration is dropped;
    - [src/unnamed/part_000], second file: the same gate and report handler
      and the insights handler with per-category statistics and the
      [getFallbackAnalysis] summary (module [ServerFallback]);
    - [src/unnamed/part_001], third file: the [MyDocument] report component
      (module [ReportPDF]).
    The first file of [src/unnamed/part_000], the earliest revision of the
    server (no validation, no statistics, no fallback), is not embedded.

    Modelling conventions.
    - A JavaScript number is a binary64 value: the kernel's primitive [float].
      The handlers are written once over the interface [Number], whose
      instance [binary64] is what the runtime computes.
    - A request body is parsed JSON.  A transaction is an object whose
      [amount] is a number and whose other members are absent or strings.
    - An object literal [{}] used as a map keeps its own properties in
      creation order and lists them as [Object.entries] does: array-index
      keys first, ascending.  Reading [o[k]] also finds what every object
      inherits from [Object.prototype]: its functions ([constructor],
      [toString], ...) and the accessor [__proto__], whose setter ignores a
      number or a string.  Adding an amount to such a member yields a string,
      which has no [toFixed].
    - [Array.prototype.sort] is the stable sort the language defines for a
      consistent comparator.  For any other comparator the language leaves
      the order to the engine; [JSArray.sort] is then the order of an
      insertion sort, and every theorem that speaks of a sorted list
      supposes the comparator consistent.
    - The auth provider, the text provider and the runtime's [Date] are the
      members of an [environment]; every call a handler makes is logged. *)

From Stdlib Require Import ZArith NArith List String Ascii Bool Lia.
From Stdlib Require Import QArith Qround Qabs Qcanon Floats DecimalString.
From Stdlib Require Import Permutation Sorted.
Import ListNotations.

#[local] Set Warnings "-inexact-float".
#[local] Close Scope Qc_scope.
#[local] Close Scope Q_scope.
#[local] Open Scope string_scope.

(** ** Text helpers: the string operations the handlers rely on *)
Module Text.

Definition nl : string := String (ascii_of_nat 10) EmptyString.

(** Decimal digits of a natural number, as a template literal prints it. *)
Definition dec (n : N) : string := NilEmpty.string_of_uint (N.to_uint n).

Fixpoint repeat0 (n : nat) : string :=
  match n with
  | O => ""
  | S n' => "0" ++ repeat0 n'
  end.

(** [Array.prototype.join]. *)
Fixpoint join (sep : string) (l : list string) : string :=
  match l with
  | [] => ""
  | [s] => s
  | s :: rest => s ++ sep ++ join sep rest
  end.

(** [String.prototype.split(' ')]: the segments between single spaces. *)
Fixpoint split_space_aux (s : string) (cur : string) : list string :=
  match s with
  | EmptyString => [cur]
  | String c s' =>
      if Ascii.eqb c " "%char then cur :: split_space_aux s' ""
      else split_space_aux s' (cur ++ String c "")
  end.

Definition split_space (s : string) : list string := split_space_aux s "".

(** ECMAScript white space and line terminators, on the UTF-8 bytes of the
    text: TAB, LF, VT, FF, CR, SP, U+00A0, U+1680, U+2000..U+200A, U+2028,
    U+2029, U+202F, U+205F, U+3000 and U+FEFF. *)
Fixpoint all_white (bytes : list nat) : bool :=
  match bytes with
  | [] => true
  | 9 :: r | 10 :: r | 11 :: r | 12 :: r | 13 :: r | 32 :: r => all_white r
  | 194 :: 160 :: r => all_white r
  | 225 :: 154 :: 128 :: r => all_white r
  | 226 :: 128 :: b :: r =>
      ((128 <=? b) && (b <=? 138) || (b =? 168) || (b =? 169) || (b =? 175))%nat
      && all_white r
  | 226 :: 129 :: 159 :: r => all_white r
  | 227 :: 128 :: 128 :: r => all_white r
  | 239 :: 187 :: 191 :: r => all_white r
  | _ => false
  end.

(** [text.trim().length === 0]. *)
Definition blank (s : string) : bool :=
  all_white (map nat_of_ascii (list_ascii_of_string s)).

Definition nonempty (s : string) : bool :=
  match s with EmptyString => false | _ => true end.

(** [n] printed with [f] fraction digits, [n] being the value times
    [10^f] (steps 9 and 10 of [Number.prototype.toFixed]). *)
Definition fixed_point (n : N) (f : nat) : string :=
  let m := dec n in
  match f with
  | O => m
  | _ =>
      let k := String.length m in
      let m := if (k <=? f)%nat then repeat0 (f + 1 - k) ++ m else m in
      let k := String.length m in
      substring 0 (k - f) m ++ "." ++ substring (k - f) f m
  end.

End Text.

(** ** Numbers: the arithmetic the handlers perform on amounts *)

(** The operations of a JavaScript number that the handlers use. *)
Class Number (num : Type) : Type := {
  num_zero : num;                       (* the literal [0] *)
  num_nan : num;                        (* [NaN]: what a text that is no number converts to *)
  num_add : num -> num -> num;          (* [a + b] *)
  num_sub : num -> num -> num;          (* [a - b] *)
  num_mul : num -> num -> num;          (* [a * b] *)
  num_div : num -> num -> num;          (* [a / b] *)
  num_of_nat : nat -> num;              (* an array length, a literal *)
  num_nine_tenths : num;                (* the literal [0.9] *)
  num_truthy : num -> bool;             (* [ToBoolean] *)
  num_positive : num -> bool;           (* [v > 0] *)
  num_negative : num -> bool;           (* [v < 0] *)
  num_toFixed : num -> nat -> string    (* [v.toFixed(f)] *)
}.

Declare Scope js_scope.
Delimit Scope js_scope with js.
Notation "a + b" := (num_add a b) : js_scope.
Notation "a - b" := (num_sub a b) : js_scope.
Notation "a * b" := (num_mul a b) : js_scope.
Notation "a / b" := (num_div a b) : js_scope.

(** *** binary64, the numbers of the runtime *)
Module Binary64.

(** The exact value [m * 2^e] of a finite number. *)
Definition exact (m : positive) (e : Z) : Q :=
  if (0 <=? e)%Z then inject_Z (Zpos m * 2 ^ e) else Qmake (Zpos m) (Z.to_pos (2 ^ (- e))).

Definition pow10 (j : Z) : Q := Qpower (inject_Z 10) j.

(** The reals that round to [m * 2^e]: the closed (even [m]) or open
    interval between the midpoints to the neighbouring numbers. *)
Definition rounds_to (m : positive) (e : Z) (v : Q) : bool :=
  let x := exact m e in
  let ulp := Qpower (inject_Z 2) e in
  let below :=
    if (Zpos m =? 2 ^ 52)%Z && (-1074 <? e)%Z
    then Qdiv ulp (inject_Z 4) else Qdiv ulp (inject_Z 2) in
  let above := Qdiv ulp (inject_Z 2) in
  let lo := Qminus x below in
  let hi := Qplus x above in
  if Z.even (Zpos m) then Qle_bool lo v && Qle_bool v hi
  else negb (Qle_bool v lo) && negb (Qle_bool hi v).

(** The [n] with [10^(n-1) <= x < 10^n]. *)
Fixpoint magnitude (fuel : nat) (n : Z) (x : Q) : Z :=
  match fuel with
  | O => n
  | S fuel' => if Qle_bool (pow10 n) x then magnitude fuel' (n + 1)%Z x else n
  end.

Definition clamp (lo hi s : Z) : Z := Z.max lo (Z.min hi s).

(** The [k]-digit candidates [(s, n)] whose value [s * 10^(n-k)] rounds to
    the number: for each exponent, the digits below and above it. *)
Definition candidates (m : positive) (e : Z) (n0 : Z) (k : Z) : list (Z * Z) :=
  let x := exact m e in
  let lo := (10 ^ (k - 1))%Z in
  let hi := (10 ^ k - 1)%Z in
  flat_map (fun n =>
    let q := Qdiv x (pow10 (n - k)) in
    filter (fun sn : Z * Z => rounds_to m e (Qmult (inject_Z (fst sn)) (pow10 (n - k))))
           [(clamp lo hi (Qfloor q), n); (clamp lo hi (Qceiling q), n)])
    [(n0 - 1)%Z; n0; (n0 + 1)%Z].

Definition distance (x : Q) (k : Z) (sn : Z * Z) : Q :=
  Qabs (Qminus (Qmult (inject_Z (fst sn)) (pow10 (snd sn - k))) x).

(** The closest candidate; of two equally close, the even one. *)
Fixpoint closest (x : Q) (k : Z) (best : Z * Z) (l : list (Z * Z)) : Z * Z :=
  match l with
  | [] => best
  | c :: l' =>
      let db := distance x k best in
      let dc := distance x k c in
      if Qle_bool db dc && negb (Qeq_bool db dc && Z.odd (fst best))
      then closest x k best l' else closest x k c l'
  end.

(** The shortest digits: [(s, n, k)] of [Number::toString]. *)
Fixpoint shortest (fuel : nat) (m : positive) (e : Z) (n0 : Z) (k : Z) : Z * Z * Z :=
  match fuel with
  | O => (0, 0, 1)%Z
  | S fuel' =>
      match candidates m e n0 k with
      | [] => shortest fuel' m e n0 (k + 1)%Z
      | c :: l => (closest (exact m e) k c l, k)
      end
  end.

(** [Number::toString] (radix 10) of a positive finite number. *)
Definition toString_finite (m : positive) (e : Z) : string :=
  let x := exact m e in
  let n0 := magnitude 700 (if Qle_bool 1 x then 1 else -330)%Z x in
  let '(s, n, k) := shortest 17 m e n0 1%Z in
  let digits := Text.dec (Z.to_N s) in
  let kn := Z.to_nat k in
  if ((k <=? n) && (n <=? 21))%Z then digits ++ Text.repeat0 (Z.to_nat (n - k))
  else if ((0 <? n) && (n <=? 21))%Z then
    substring 0 (Z.to_nat n) digits ++ "." ++ substring (Z.to_nat n) (kn - Z.to_nat n) digits
  else if ((-6 <? n) && (n <=? 0))%Z then "0." ++ Text.repeat0 (Z.to_nat (- n)) ++ digits
  else
    let ex := (n - 1)%Z in
    let exps := (if (0 <=? ex)%Z then "+" else "-") ++ Text.dec (Z.abs_N ex) in
    if (k =? 1)%Z then digits ++ "e" ++ exps
    else substring 0 1 digits ++ "." ++ substring 1 (kn - 1) digits ++ "e" ++ exps.

Definition toString (x : float) : string :=
  match Prim2SF x with
  | S754_nan => "NaN"
  | S754_zero _ => "0"
  | S754_infinity s => if s then "-Infinity" else "Infinity"
  | S754_finite s m e => (if s then "-" else "") ++ toString_finite m e
  end.

(** The integer [n] for which [n / 10^f - x] is closest to zero, the larger
    of two such (step 8 of [Number.prototype.toFixed]). *)
Definition nearest (x : Q) (f : nat) : N :=
  Z.to_N (Qfloor (Qplus (Qmult x (pow10 (Z.of_nat f))) (Qmake 1 2))).

(** [Number.prototype.toFixed]. *)
Definition toFixed (x : float) (f : nat) : string :=
  match Prim2SF x with
  | S754_nan => "NaN"
  | S754_infinity s => if s then "-Infinity" else "Infinity"
  | S754_zero _ => Text.fixed_point 0 f
  | S754_finite s m e =>
      (if s then "-" else "") ++
      (if Qle_bool (pow10 21) (exact m e) then toString_finite m e
       else Text.fixed_point (nearest (exact m e) f) f)
  end.

Definition truthy (x : float) : bool := negb (PrimFloat.eqb x 0 || PrimFloat.is_nan x).

(** The rational a number stands for; an infinity and NaN stand for none. *)
Definition value (x : float) : option Qc :=
  match Prim2SF x with
  | S754_zero _ => Some (Q2Qc 0)
  | S754_finite s m e => Some (Q2Qc (if s then Qopp (exact m e) else exact m e))
  | S754_infinity _ | S754_nan => None
  end.

(** [x + y] is computed without rounding: the result stands for the sum of
    what [x] and [y] stand for. *)
Definition exact_sum (x y : float) : bool :=
  match value x, value y, value (x + y) with
  | Some a, Some b, Some c => Qc_eq_bool (Qcplus a b) c
  | _, _, _ => false
  end.

End Binary64.

#[export] Instance binary64 : Number float := {
  num_zero := 0%float;
  num_nan := nan;
  num_add := PrimFloat.add;
  num_sub := PrimFloat.sub;
  num_mul := PrimFloat.mul;
  num_div := PrimFloat.div;
  num_of_nat := fun n => PrimFloat.of_uint63 (Uint63.of_Z (Z.of_nat n));
  num_nine_tenths := 0.9%float;
  num_truthy := Binary64.truthy;
  num_positive := fun v => PrimFloat.ltb 0 v;
  num_negative := fun v => PrimFloat.ltb v 0;
  num_toFixed := Binary64.toFixed
}.

(** ** Objects used as maps, and arrays *)
Module JSObject.

(** An object literal [{}] filled by assignments [o[k] = v]: its own
    properties, in the order in which they were created. *)
Definition t (V : Type) : Type := list (string * V).

Definition empty {V : Type} : t V := [].

(** The functions every object inherits from [Object.prototype]. *)
Definition prototype_functions : list string :=
  ["constructor"; "__defineGetter__"; "__defineSetter__"; "hasOwnProperty";
   "__lookupGetter__"; "__lookupSetter__"; "isPrototypeOf"; "propertyIsEnumerable";
   "toString"; "valueOf"; "toLocaleString"].

(** What reading [o[k]] finds. *)
Inductive member (V : Type) : Type :=
| Own (v : V)                  (* an own property *)
| Inherited (name : string)    (* a function of [Object.prototype] *)
| Prototype                    (* [o.__proto__]: [Object.prototype] itself *)
| Missing.                     (* [undefined] *)
Arguments Own {V} v.
Arguments Inherited {V} name.
Arguments Prototype {V}.
Arguments Missing {V}.

(** The own property of a name, if there is one. *)
Fixpoint own {V : Type} (k : string) (o : t V) : option V :=
  match o with
  | [] => None
  | (k', v) :: o' => if String.eqb k' k then Some v else own k o'
  end.

(** [o[k]]: the own property, else what the prototype has under the name. *)
Definition get {V : Type} (k : string) (o : t V) : member V :=
  match own k o with
  | Some v => Own v
  | None =>
      if String.eqb k "__proto__" then Prototype
      else if existsb (String.eqb k) prototype_functions then Inherited k
      else Missing
  end.

(** An own property is written: an existing one keeps its place, a new
    one is created last. *)
Fixpoint store {V : Type} (k : string) (v : V) (o : t V) : t V :=
  match o with
  | [] => [(k, v)]
  | (k', v') :: o' =>
      if String.eqb k' k then (k', v) :: o' else (k', v') :: store k v o'
  end.

(** [o[k] = v] for a number or a string [v]: the setter of [__proto__]
    ignores such a value and nothing is stored; under any other name the
    own property is written (the functions of [Object.prototype] are
    writable, so an own property shadows them). *)
Definition set {V : Type} (k : string) (v : V) (o : t V) : t V :=
  if String.eqb k "__proto__" then o else store k v o.

Fixpoint digits_value (s : string) (acc : N) : option N :=
  match s with
  | EmptyString => Some acc
  | String c s' =>
      let d := nat_of_ascii c in
      if ((48 <=? d) && (d <=? 57))%nat
      then digits_value s' (acc * 10 + N.of_nat (d - 48))%N
      else None
  end.

(** An array index: the canonical decimal text of an integer below
    [2^32 - 1]. *)
Definition array_index (k : string) : option N :=
  match k with
  | EmptyString => None
  | _ =>
      match digits_value k 0%N with
      | Some n => if String.eqb (Text.dec n) k && (n <? 4294967295)%N then Some n else None
      | None => None
      end
  end.

Definition is_index (k : string) : bool :=
  match array_index k with Some _ => true | None => false end.

Fixpoint insert_index {V : Type} (n : N) (p : string * V) (l : list (N * (string * V)))
  : list (N * (string * V)) :=
  match l with
  | [] => [(n, p)]
  | (n', p') :: l' =>
      if (n <? n')%N then (n, p) :: l else (n', p') :: insert_index n p l'
  end.

(** The array-index properties, ascending. *)
Fixpoint index_properties {V : Type} (o : t V) : list (N * (string * V)) :=
  match o with
  | [] => []
  | (k, v) :: o' =>
      match array_index k with
      | Some n => insert_index n (k, v) (index_properties o')
      | None => index_properties o'
      end
  end.

(** [Object.entries(o)]: the array-index keys in ascending numeric order,
    then the other keys in creation order (OrdinaryOwnPropertyKeys). *)
Definition entries {V : Type} (o : t V) : list (string * V) :=
  map snd (index_properties o) ++ filter (fun p => negb (is_index (fst p))) o.

(** [Object.keys(o)]. *)
Definition keys {V : Type} (o : t V) : list string := map fst (entries o).

End JSObject.

Module JSArray.
Section Sort.
Context {num : Type} `{Number num} {A : Type}.
Variable comparefn : A -> A -> num.

(** [x], which stood before every element of the sorted [l], goes
    behind the elements the comparator puts before it. *)
Fixpoint insert (x : A) (l : list A) : list A :=
  match l with
  | [] => [x]
  | y :: l' =>
      if num_positive (comparefn x y) then y :: insert x l' else x :: y :: l'
  end.

(** [Array.prototype.sort(comparefn)]: the stable sort; a comparator
    result that is not positive leaves two elements in their order. *)
Fixpoint sort (l : list A) : list A :=
  match l with
  | [] => []
  | x :: l' => insert x (sort l')
  end.
End Sort.

(** [a.slice(0, n)]. *)
Definition slice0 {A : Type} (n : nat) (a : list A) : list A := firstn n a.

(** [a.map((x, i) => f(x, i))]. *)
Fixpoint mapi_from {A B : Type} (i : nat) (f : A -> nat -> B) (a : list A) : list B :=
  match a with
  | [] => []
  | x :: a' => f x i :: mapi_from (S i) f a'
  end.

Definition mapi {A B : Type} (f : A -> nat -> B) (a : list A) : list B := mapi_from 0 f a.
End JSArray.

(** ** Request data *)

(** A member of a parsed JSON body that the handlers only test or print.
    [Composite] is an object, or an array where no array is expected, with
    the text its string conversion produces. *)
Inductive value : Type :=
| Undefined
| Null
| Bool (b : bool)
| Num (x : float)
| Str (s : string)
| Composite (printed : string).

(** [ToBoolean]. *)
Definition truthy (v : value) : bool :=
  match v with
  | Undefined | Null => false
  | Bool b => b
  | Num x => Binary64.truthy x
  | Str s => Text.nonempty s
  | Composite _ => true
  end.

(** [ToString], as a template literal applies it. *)
Definition ToString (v : value) : string :=
  match v with
  | Undefined => "undefined"
  | Null => "null"
  | Bool b => if b then "true" else "false"
  | Num x => Binary64.toString x
  | Str s => s
  | Composite printed => printed
  end.

(** A string member that may be absent ([undefined] or [null]). *)
Definition of_member (m : option string) : value :=
  match m with
  | Some s => Str s
  | None => Undefined
  end.

(** [a || b] on string members: the first that is present and not empty. *)
Definition or_else (a b : option string) : option string :=
  match a with
  | Some (String _ _) => a
  | _ => b
  end.

(** [a || 'literal']. *)
Definition or_literal (a : option string) (literal : string) : string :=
  match a with
  | Some (String c s) => String c s
  | _ => literal
  end.

Section Data.
Context {num : Type}.

(** A transaction snapshot as the clients send it. [categories] is the
    joined row of the client-side report ([t.categories.category_name]). *)
Record transaction : Type := {
  amount : num;
  category : option string;
  category_name : option string;
  date : option string;
  description : option string;
  categories : option (option string)
}.

(** The [transactions] member of a body. *)
Inductive transactions_member : Type :=
| NotArray (v : value)
| ArrayOf (l : list transaction).

(** The JSON body of a request; [other] holds any further members. *)
Record request_body : Type := {
  transactions : transactions_member;
  month : value;
  year : value;
  summary : value;
  other : list (string * value)
}.

Record request : Type := {
  authorization : option string;       (* [req.headers.authorization] *)
  body : request_body
}.

(** One line of the transaction listing of a prompt: the values that
    are interpolated into it. *)
Record prompt_line : Type := {
  line_date : value;                   (* [t.date] *)
  line_category : value;               (* [t.category || t.category_name] *)
  line_amount : num;                   (* [t.amount] *)
  line_description : string            (* [t.description || 'No description'] *)
}.

(** The text submitted to the provider, as the values interpolated into
    its template. *)
Inductive prompt : Type :=
| JsonPrompt (month year : value) (shown : list transaction) (note : option nat)
| SummaryPrompt (month year : value) (total : string) (count : nat)
    (top : list (string * string)) (details : list prompt_line).

(** What a property of an object of totals holds: a number, or the string
    that [+] glues once the name of the property is one that [{}] inherits:
    the text of [Object.prototype[name]] followed by the amounts added. *)
Inductive stored : Type :=
| Amount (x : num)
| Glued (name : string) (amounts : list num).

(** The calls a handler makes to its collaborators. *)
Inductive call : Type :=
| GetUser (token : string)                               (* the auth provider *)
| GenerateContent (model : string) (p : prompt)          (* the text provider *)
| NewPDFDocument.                                        (* the PDF library *)

End Data.
Arguments transaction : clear implicits.
Arguments transactions_member : clear implicits.
Arguments request_body : clear implicits.
Arguments request : clear implicits.
Arguments prompt_line : clear implicits.
Arguments prompt : clear implicits.
Arguments call : clear implicits.
Arguments stored : clear implicits.

Record error : Type := { name : string; message : string }.

(** The TypeError of calling a member that a value does not have (no
    handler reads its message). *)
Definition not_a_function (callee : string) : error :=
  {| name := "TypeError"; message := callee ++ " is not a function" |}.

(** What [supabase.auth.getUser(token)] does. *)
Inductive auth_outcome : Type :=
| AuthUser (user : string)       (* resolves with a user and no error *)
| AuthError (e : error)          (* resolves with [error] set *)
| AuthThrows (e : error).        (* rejects *)

(** What [model.generateContent(prompt)] and reading its text do. *)
Inductive ai_outcome : Type :=
| AiRejects (e : error)          (* the call rejects: network, timeout, HTTP error *)
| AiNoResult                     (* resolves to nothing *)
| AiNoResponse                   (* the result has no [response] *)
| AiTextThrows (e : error)       (* [response.text()] throws: blocked or malformed *)
| AiText (text : string).        (* [response.text()] returns *)

(** The collaborators and the runtime of the server. *)
Record environment {num : Type} : Type := {
  getUser : string -> auth_outcome;
  generateContent : string -> prompt num -> ai_outcome;
  (** the week key of a date text:
      [new Date(new Date(d).setDate(..)).toISOString().split('T')[0]], or
      [None] when [toISOString] throws its RangeError on an invalid date *)
  week_key : string -> option string;
  (** [new Date(d).toLocaleDateString()] *)
  toLocaleDateString : value -> string;
  (** [new Date(year, month - 1).toLocaleString('default', {month: 'long'})] *)
  month_name : value -> value -> string;
  (** the message of the TypeError raised by reading a member of nothing *)
  type_error_message : string -> string;
  (** [process.env.NODE_ENV === 'development'] and [error.stack] *)
  development : bool;
  stack_of : error -> string
}.
Arguments environment : clear implicits.

(** ** Responses *)

Record metadata : Type := {
  totalTransactions : nat;
  totalAmount : string;
  topCategories : list (string * string)       (* [{category, amount}] *)
}.

(** A JSON response body: each member is present or not. *)
Record json_body : Type := {
  insights : option string;
  success : option bool;
  fallback : option bool;
  error_text : option string;                   (* [error] *)
  details : option string;
  meta : option (nat * string);                 (* [{transactionCount, period}] *)
  metadata_of : option metadata                 (* [metadata] *)
}.

(** [{ insights: text }]. *)
Definition insights_only (text : string) : json_body :=
  {| insights := Some text; success := None; fallback := None; error_text := None;
     details := None; meta := None; metadata_of := None |}.

(** [{ error: msg }]. *)
Definition error_body (msg : string) : json_body :=
  {| insights := None; success := None; fallback := None; error_text := Some msg;
     details := None; meta := None; metadata_of := None |}.

(** A streamed PDF: the response headers and the texts drawn, in order. *)
Record pdf : Type := {
  content_disposition : string;
  texts : list value
}.

Inductive response : Type :=
| Json (status : nat) (b : json_body)
| Pdf (document : pdf).

(** ** Handlers as computations that log their calls and may throw *)

Inductive result (A : Type) : Type :=
| Value (a : A)
| Thrown (e : error).
Arguments Value {A} a.
Arguments Thrown {A} e.

Section Run.
Context {num : Type}.

Definition Run (A : Type) : Type := list (call num) -> result A * list (call num).

Definition ret {A : Type} (a : A) : Run A := fun log => (Value a, log).

Definition bind {A B : Type} (m : Run A) (k : A -> Run B) : Run B :=
  fun log =>
    match m log with
    | (Value a, log') => k a log'
    | (Thrown e, log') => (Thrown e, log')
    end.

Definition throw {A : Type} (e : error) : Run A := fun log => (Thrown e, log).

Definition perform (c : call num) : Run unit := fun log => (Value tt, (log ++ [c])%list).

(** [try { m } catch (e) { h e }]. *)
Definition try_catch {A : Type} (m : Run A) (h : error -> Run A) : Run A :=
  fun log =>
    match m log with
    | (Thrown e, log') => h e log'
    | r => r
    end.

Definition lift {A : Type} (r : result A) : Run A := fun log => (r, log).

(** The results of a loop whose callback may throw: the first exception
    ends it. *)
Fixpoint collect {A : Type} (l : list (result A)) : result (list A) :=
  match l with
  | [] => Value []
  | Thrown e :: _ => Thrown e
  | Value a :: l' =>
      match collect l' with
      | Value rest => Value (a :: rest)
      | Thrown e => Thrown e
      end
  end.

(** What a request leaves behind: the response the handler sent, if
    any, and the calls made.  An async handler that throws sends nothing
    itself: Express 4 leaves the request unanswered, Express 5 hands the
    error to the error middleware. *)
Record outcome : Type := {
  sent : option response;
  calls : list (call num)
}.

Definition handle (m : Run response) : outcome :=
  match m [] with
  | (Value r, log) => {| sent := Some r; calls := log |}
  | (Thrown _, log) => {| sent := None; calls := log |}
  end.

End Run.
Arguments Run : clear implicits.
Arguments outcome : clear implicits.

Notation "x <- m ;; k" := (bind m (fun x => k))
  (at level 61, m at next level, right associativity).
Notation "m ;;; k" := (bind m (fun _ => k))
  (at level 61, right associativity).

(** ** The token gate (the same function in every revision of the server) *)
Section Gate.
Context {num : Type}.
Variable env : environment num.

Definition unauthorized : response := Json 401 (error_body "Unauthorized").

(** [req.headers.authorization?.split(' ')[1]]. *)
Definition bearer_token (header : option string) : option string :=
  match header with
  | None => None
  | Some h => nth_error (Text.split_space h) 1
  end.

(** [authenticateJWT]: [next] is the route handler, called with the
    resolved user.  The handler is an async function, so what it throws
    never reaches the [catch] of the gate. *)
Definition authenticateJWT (req : request num) (next : string -> Run num response)
  : Run num response :=
  match bearer_token (authorization req) with
  | None | Some EmptyString => ret unauthorized
  | Some token =>
      verdict <- try_catch
                   (perform (GetUser token) ;;;
                    match getUser env token with
                    | AuthUser user => ret (inl user)
                    | AuthError e => throw e
                    | AuthThrows e => throw e
                    end)
                   (fun _ => ret (inr unauthorized)) ;;
      match verdict with
      | inl user => next user
      | inr refusal => ret refusal
      end
  end.
End Gate.

(** ** Statistics shared by the prompt and the fallback summary *)
Section Statistics.
Context {num : Type} `{Number num}.
#[local] Open Scope js_scope.

(** [t.category || t.category_name || 'Other']. *)
Definition category_key (t : transaction num) : string :=
  or_literal (or_else (category t) (category_name t)) "Other".

(** [(v || 0)] for a number that may be absent. *)
Definition or_zero (v : option num) : num :=
  match v with
  | Some x => if num_truthy x then x else num_zero
  | None => num_zero
  end.

(** [(o[k] || 0) + amount].  A number is added to.  A function and an
    object are truthy, and [+] glues their text and the amount into a
    string; so it does with a string that is there already.  (Under
    [__proto__] the object is [Object.prototype] and the string is never
    stored.) *)
Definition plus_amount (m : JSObject.member (stored num)) (amount : num) : stored num :=
  match m with
  | JSObject.Own (Amount x) => Amount (or_zero (Some x) + amount)
  | JSObject.Own (Glued name amounts) => Glued name (amounts ++ [amount])
  | JSObject.Inherited name => Glued name [amount]
  | JSObject.Prototype => Glued "__proto__" [amount]
  | JSObject.Missing => Amount (or_zero None + amount)
  end.

(** One turn of the [forEach] that fills [categoryTotals] and
    [totalAmount]. *)
Definition tally (acc : JSObject.t (stored num) * num) (t : transaction num)
  : JSObject.t (stored num) * num :=
  let '(categoryTotals, totalAmount) := acc in
  let category := category_key t in
  (JSObject.set category
     (plus_amount (JSObject.get category categoryTotals) (amount t)) categoryTotals,
   totalAmount + amount t).

Definition category_totals (txs : list (transaction num)) : JSObject.t (stored num) * num :=
  fold_left tally txs (JSObject.empty, num_zero).

(** [ToNumber], as [-] applies it to a total: the text of a function is
    no numeric literal. *)
Definition ToNumber (v : stored num) : num :=
  match v with
  | Amount x => x
  | Glued _ _ => num_nan
  end.

(** The comparator of the ranking: [(a, b) => b[1] - a[1]]. *)
Definition descending (a b : string * stored num) : num :=
  ToNumber (snd b) - ToNumber (snd a).

(** [Object.entries(totals).sort((a, b) => b[1] - a[1]).slice(0, 3)]. *)
Definition top_categories (totals : JSObject.t (stored num)) : list (string * stored num) :=
  JSArray.slice0 3 (JSArray.sort descending (JSObject.entries totals)).

(** [amt.toFixed(f)]: a number has the method, a string has not. *)
Definition toFixed (callee : string) (amt : stored num) (f : nat) : result string :=
  match amt with
  | Amount x => Value (num_toFixed x f)
  | Glued _ _ => Thrown (not_a_function callee)
  end.

(** [transactions.reduce((sum, t) => sum + t.amount, 0)]. *)
Definition sum_amounts (txs : list (transaction num)) : num :=
  fold_left (fun sum t => sum + amount t) txs num_zero.
End Statistics.

(** ** The PDF report handler (both revisions; they differ in the category cell) *)
Section Report.
Context {num : Type} `{Number num}.
Variable env : environment num.
Variable category_cell : transaction num -> value.
#[local] Open Scope js_scope.

(** The four cells drawn for one transaction. *)
Definition row_texts (t : transaction num) : list value :=
  [Str (toLocaleDateString env (of_member (date t)));
   category_cell t;
   Str (or_literal (description t) "-");
   Str ("$" ++ num_toFixed (amount t) 2)].

(** One turn of the [forEach] that draws the table rows: the running
    total and the texts drawn so far. *)
Definition draw_row (acc : num * list value) (t : transaction num) : num * list value :=
  let '(total, drawn) := acc in
  (total + amount t, (drawn ++ row_texts t)%list).

Definition report_heading (b : request_body num) : list value :=
  [Str ("Expense Report - " ++ ToString (month b) ++ "/" ++ ToString (year b));
   Str "AI-Generated Summary:";
   summary b;
   Str "Transaction Details:";
   Str "Date"; Str "Category"; Str "Description"; Str "Amount"].

Definition total_line (total : num) : value :=
  Str ("Total Expenses: $" ++ num_toFixed total 2).

(** The handler of [POST /api/generate-report]. *)
Definition generate_report (req : request num) : Run num response :=
  try_catch
    (let b := body req in
     perform NewPDFDocument ;;;
     match transactions b with
     | NotArray _ =>
         throw {| name := "TypeError"; message := type_error_message env "forEach" |}
     | ArrayOf txs =>
         let '(total, rows) := fold_left draw_row txs (num_zero, []) in
         ret (Pdf {| content_disposition :=
                       "attachment; filename=expense-report-" ++ ToString (month b)
                       ++ "-" ++ ToString (year b) ++ ".pdf";
                     texts := (report_heading b ++ rows ++ [total_line total])%list |})
     end)
    (fun _ => ret (Json 500 (error_body "Failed to generate PDF"))).

(** [app.post('/api/generate-report', authenticateJWT, ...)]. *)
Definition post_generate_report (req : request num) : outcome num :=
  handle (authenticateJWT env req (fun _ => generate_report req)).
End Report.

(** ** The server of [src/unnamed/part_000] (second file): statistics and fallback *)
Module ServerFallback.
Section Handlers.
Context {num : Type} `{Number num}.
Variable env : environment num.
#[local] Open Scope js_scope.

Definition range_error : error :=
  {| name := "RangeError"; message := "Invalid time value" |}.

(** One turn of the [forEach] that fills [weeklySpending]. *)
Definition weekly (acc : result (JSObject.t (stored num))) (t : transaction num)
  : result (JSObject.t (stored num)) :=
  match acc with
  | Thrown e => Thrown e
  | Value weeklySpending =>
      match date t with
      | Some (String c d) =>
          match week_key env (String c d) with
          | Some weekKey =>
              Value (JSObject.set weekKey
                       (plus_amount (JSObject.get weekKey weeklySpending) (amount t))
                       weeklySpending)
          | None => Thrown range_error
          end
      | _ => Value weeklySpending
      end
  end.

(** One line of the ranking of the summary; [amt.toFixed(2)] is the first
    thing the line evaluates. *)
Definition ranking_line (totalAmount : num) (e : string * stored num) (i : nat)
  : result string :=
  let '(cat, amt) := e in
  match amt with
  | Amount x =>
      Value (Text.dec (N.of_nat (i + 1)) ++ ". **" ++ cat ++ "**: `" ++ num_toFixed x 2
             ++ "` *(" ++ num_toFixed ((x / totalAmount) * num_of_nat 100) 1 ++ "%)*")%string
  | Glued _ _ => Thrown (not_a_function "amt.toFixed")
  end.

Definition no_data : string :=
  ("## ❌ No Data Available" ++ Text.nl ++ Text.nl
   ++ "No transaction data available for analysis.")%string.

(** [topCategories[0]?.[0]], as the template prints it. *)
Definition first_category (topCategories : list (string * stored num)) : string :=
  match topCategories with
  | (cat, _) :: _ => cat
  | [] => "undefined"
  end.

(** The summary text for a non-empty list; [lines] are the lines of the
    ranking. *)
Definition summary_text (txs : list (transaction num)) (month year : value)
  (totalAmount : num) (lines : list string) (topCategory : string) (weeks : nat) : string :=
  let n := Text.nl in
  let averageTransaction := totalAmount / num_of_nat (List.length txs) in
  let avgWeeklySpend :=
    if (0 <? weeks)%nat then totalAmount / num_of_nat weeks else totalAmount in
  ("## 📊 Expense Analysis for " ++ ToString month ++ " " ++ ToString year ++ n
   ++ n
   ++ "### 💰 Spending Overview" ++ n
   ++ "- **Total Expenses**: `" ++ num_toFixed totalAmount 2 ++ "`" ++ n
   ++ "- **Number of Transactions**: `" ++ Text.dec (N.of_nat (List.length txs)) ++ "`" ++ n
   ++ "- **Average per Transaction**: `" ++ num_toFixed averageTransaction 2 ++ "`"
   ++ (if (1 <? weeks)%nat
       then n ++ "- **Average Weekly Spend**: `" ++ num_toFixed avgWeeklySpend 2 ++ "`"
       else "") ++ n
   ++ n
   ++ "### 📈 Top Spending Categories" ++ n
   ++ Text.join n lines ++ n
   ++ n
   ++ "### 💡 Money-Saving Opportunities" ++ n
   ++ "- **Track Daily Expenses**: Monitor small recurring costs that add up over time" ++ n
   ++ "- **Set Weekly Budget**: Aim for `"
   ++ num_toFixed (avgWeeklySpend * num_nine_tenths) 2 ++ "` per week to save 10%" ++ n
   ++ "- **Review Top Category**: Analyze your **" ++ topCategory
   ++ "** spending for potential cuts" ++ n
   ++ n
   ++ "### 🎯 Budget Recommendation" ++ n
   ++ "Consider using the **50/30/20 budgeting rule**:" ++ n
   ++ "- 50% for needs" ++ n
   ++ "- 30% for wants  " ++ n
   ++ "- 20% for savings" ++ n
   ++ n
   ++ "This helps build better financial habits and ensures you're saving for the future." ++ n
   ++ n
   ++ "---" ++ n
   ++ "*⚠️ Note: This is a basic analysis. AI-powered insights will be available when the service is restored.*")%string.

(** [getFallbackAnalysis(transactions, month, year)]: the weekly loop may
    throw on a date, the template on a total that is a string. *)
Definition getFallbackAnalysis (transactions : transactions_member num)
  (month year : value) : result string :=
  match transactions with
  | NotArray v =>
      if truthy v then Thrown (not_a_function "transactions.forEach") else Value no_data
  | ArrayOf [] => Value no_data
  | ArrayOf txs =>
      let '(categories, totalAmount) := category_totals txs in
      let topCategories := top_categories categories in
      match fold_left weekly txs (Value JSObject.empty) with
      | Thrown e => Thrown e
      | Value weeklySpending =>
          let weeks := List.length (JSObject.keys weeklySpending) in
          match collect (JSArray.mapi (ranking_line totalAmount) topCategories) with
          | Thrown e => Thrown e
          | Value lines =>
              Value (summary_text txs month year totalAmount lines
                       (first_category topCategories) weeks)
          end
      end
  end.

Definition details_line (t : transaction num) : prompt_line num :=
  {| line_date := of_member (date t);
     line_category := of_member (or_else (category t) (category_name t));
     line_amount := amount t;
     line_description := or_literal (description t) "No description" |}.

Definition model_name : string := "gemini-1.5-flash".

(** [topCategories.map(([cat, amt]) => ... amt.toFixed(2) ...)]. *)
Definition shown_categories (topCategories : list (string * stored num))
  : result (list (string * string)) :=
  collect (map (fun e : string * stored num =>
                  match toFixed "amt.toFixed" (snd e) 2 with
                  | Value printed => Value (fst e, printed)
                  | Thrown err => Thrown err
                  end) topCategories).

(** The prompt: the period, the statistics and one line for every
    transaction ([transactions.map(...).join('\n')]). *)
Definition compose_prompt (b : request_body num) (txs : list (transaction num))
  : result (prompt num) :=
  let '(categoryTotals, totalAmount) := category_totals txs in
  match shown_categories (top_categories categoryTotals) with
  | Thrown e => Thrown e
  | Value shown =>
      Value (SummaryPrompt (month b) (year b) (num_toFixed totalAmount 2) (List.length txs)
               shown (map details_line txs))
  end.

Definition unavailable : string :=
  "AI analysis temporarily unavailable - showing basic analysis".

(** The body of the success response. *)
Definition success_reply (text : string) (txs : list (transaction num))
  (totalAmount : num) (shown : list (string * string)) : json_body :=
  {| insights := Some text; success := Some true; fallback := None;
     error_text := None; details := None; meta := None;
     metadata_of := Some {| totalTransactions := List.length txs;
                            totalAmount := num_toFixed totalAmount 2;
                            topCategories := shown |} |}.

(** The body sent from the [catch] block. *)
Definition fallback_reply (fallbackAnalysis : string) : json_body :=
  {| insights := Some fallbackAnalysis; success := Some false; fallback := Some true;
     error_text := Some unavailable; details := None; meta := None;
     metadata_of := None |}.

(** The handler of [POST /api/generate-insights]. *)
Definition generate_insights (req : request num) : Run num response :=
  try_catch
    (match transactions (body req) with
     | NotArray _ => ret (Json 400 (error_body "Invalid transactions data"))
     | ArrayOf [] =>
         ret (Json 200 (insights_only "No transactions available for analysis"))
     | ArrayOf txs =>
         let '(categoryTotals, totalAmount) := category_totals txs in
         let topCategories := top_categories categoryTotals in
         prompt <- lift (compose_prompt (body req) txs) ;;
         perform (GenerateContent model_name prompt) ;;;
         text <- match generateContent env model_name prompt with
                 | AiRejects e => throw e
                 | AiNoResult | AiNoResponse =>
                     throw {| name := "Error"; message := "No response from Gemini API" |}
                 | AiTextThrows e => throw e
                 | AiText text => ret text
                 end ;;
         if negb (Text.nonempty text) || Text.blank text
         then throw {| name := "Error"; message := "Empty response from Gemini API" |}
         else
           shown <- lift (shown_categories topCategories) ;;
           ret (Json 200 (success_reply text txs totalAmount shown))
     end)
    (fun _ =>
       fallbackAnalysis <- lift (getFallbackAnalysis (transactions (body req))
                                   (month (body req)) (year (body req))) ;;
       ret (Json 200 (fallback_reply fallbackAnalysis))).

(** [app.post('/api/generate-insights', authenticateJWT, ...)]. *)
Definition post_generate_insights (req : request num) : outcome num :=
  handle (authenticateJWT env req (fun _ => generate_insights req)).

(** [doc.text(t.category_name || t.category, ...)]. *)
Definition category_cell (t : transaction num) : value :=
  of_member (or_else (category_name t) (category t)).

Definition post_generate_report (req : request num) : outcome num :=
  post_generate_report env category_cell req.

End Handlers.
End ServerFallback.

(** ** The server of [src/server/index.js] *)
Module ServerIndex.
Section Handlers.
Context {num : Type} `{Number num}.
Variable env : environment num.

Definition model_name : string := "gemini-pro".

(** The prompt: the period, [JSON.stringify(transactions.slice(0, 20))]
    and, for a longer list, the note [(Showing 20 of n transactions)]. *)
Definition compose_prompt (b : request_body num) (txs : list (transaction num))
  : prompt num :=
  JsonPrompt (month b) (year b) (JSArray.slice0 20 txs)
    (if (20 <? List.length txs)%nat then Some (List.length txs) else None).

(** [error.message || "Analysis failed"]. *)
Definition message_or_default (e : error) : string :=
  match message e with
  | EmptyString => "Analysis failed"
  | m => m
  end.

(** The body of the success response. *)
Definition success_reply (text : string) (b : request_body num)
  (txs : list (transaction num)) : json_body :=
  {| insights := Some text; success := None; fallback := None; error_text := None;
     details := None;
     meta := Some (List.length txs, ToString (month b) ++ " " ++ ToString (year b));
     metadata_of := None |}.

(** The body sent from the [catch] block, with status 500. *)
Definition failure_reply (e : error) : json_body :=
  {| insights := None; success := None; fallback := None;
     error_text := Some (message_or_default e);
     details := if development env then Some (stack_of env e) else None;
     meta := None; metadata_of := None |}.

(** The handler of [POST /api/generate-insights]. *)
Definition generate_insights (req : request num) : Run num response :=
  try_catch
    (let b := body req in
     match transactions b with
     | NotArray _ => ret (Json 400 (error_body "Invalid transactions data"))
     | ArrayOf [] =>
         ret (Json 200 (insights_only "No transactions available for analysis"))
     | ArrayOf txs =>
         let prompt := compose_prompt b txs in
         perform (GenerateContent model_name prompt) ;;;
         text <- match generateContent env model_name prompt with
                 | AiRejects _ =>
                     throw {| name := "Error"; message := "AI service unavailable" |}
                 | AiNoResult =>
                     throw {| name := "TypeError";
                              message := type_error_message env "response" |}
                 | AiNoResponse =>
                     throw {| name := "TypeError";
                              message := type_error_message env "text" |}
                 | AiTextThrows e => throw e
                 | AiText text => ret text
                 end ;;
         if negb (Text.nonempty text)
         then throw {| name := "Error"; message := "Empty response from AI" |}
         else ret (Json 200 (success_reply text b txs))
     end)
    (fun e => ret (Json 500 (failure_reply e))).

(** [app.post('/api/generate-insights', authenticateJWT, ...)]. *)
Definition post_generate_insights (req : request num) : outcome num :=
  handle (authenticateJWT env req (fun _ => generate_insights req)).

(** [doc.text(t.category_name, ...)]. *)
Definition category_cell (t : transaction num) : value := of_member (category_name t).

Definition post_generate_report (req : request num) : outcome num :=
  post_generate_report env category_cell req.
End Handlers.
End ServerIndex.

(** ** The client-side report document of [src/unnamed/part_001] *)
Module ReportPDF.
Section Component.
Context {num : Type} `{Number num}.
Variable env : environment num.
#[local] Open Scope js_scope.

Record row : Type := {
  row_date : string;
  row_category : value;
  row_description : string;
  row_amount : string
}.

(** The texts of the rendered document. *)
Record document : Type := {
  title : string;
  summary_section : option string;
  rows : list row;
  total_text : string;
  by_category : list string
}.

(** One turn of the [forEach] that fills [categoryData]: reading
    [t.categories.category_name] throws when [t.categories] is missing. *)
Definition group (acc : result (JSObject.t (stored num))) (t : transaction num)
  : result (JSObject.t (stored num)) :=
  match acc with
  | Thrown e => Thrown e
  | Value categoryData =>
      match categories t with
      | None =>
          Thrown {| name := "TypeError";
                    message := type_error_message env "category_name" |}
      | Some joined =>
          let category := ToString (of_member joined) in
          Value (JSObject.set category
                   (plus_amount (JSObject.get category categoryData) (amount t))
                   categoryData)
      end
  end.

Definition table_row (t : transaction num) : row :=
  {| row_date := toLocaleDateString env (of_member (date t));
     row_category := of_member (category_name t);
     row_description := or_literal (description t) "-";
     row_amount := "$" ++ num_toFixed (amount t) 2 |}.

(** One line of the breakdown; [amount.toFixed(2)] is the first thing it
    evaluates. *)
Definition category_text (total : num) (e : string * stored num) : result string :=
  let '(category, amount) := e in
  match amount with
  | Amount x =>
      Value (category ++ ": $" ++ num_toFixed x 2 ++ " ("
             ++ num_toFixed (x / total * num_of_nat 100) 1 ++ "%)")%string
  | Glued _ _ => Thrown (not_a_function "amount.toFixed")
  end.

(** [MyDocument({ transactions, month, year, summary })]. *)
Definition MyDocument (transactions : list (transaction num))
  (month year summary : value) : result document :=
  let monthName := month_name env year month in
  let total := fold_left (fun sum t => sum + amount t) transactions num_zero in
  match fold_left group transactions (Value JSObject.empty) with
  | Thrown e => Thrown e
  | Value categoryData =>
      match collect (map (category_text total) (JSObject.entries categoryData)) with
      | Thrown e => Thrown e
      | Value lines =>
          Value {| title := "Expense Report - " ++ monthName ++ " " ++ ToString year;
                   summary_section :=
                     if truthy summary then Some (ToString summary) else None;
                   rows := map table_row transactions;
                   total_text := "Total Expenses: $" ++ num_toFixed total 2;
                   by_category := lines |}
      end
  end.
End Component.
End ReportPDF.

(** ** Specification vocabulary *)

(** [x] stands before [y] in a list. *)
Inductive before {A : Type} (x y : A) : list A -> Prop :=
| before_here : forall l, In y l -> before x y (x :: l)
| before_later : forall z l, before x y l -> before x y (z :: l).

(** The position of the first occurrence of a key. *)
Fixpoint first_index (c : string) (l : list string) : option nat :=
  match l with
  | [] => None
  | k :: l' => if String.eqb k c then Some 0 else option_map S (first_index c l')
  end.

(** [k] is not among [keys]. *)
Definition unseen (keys : list string) (k : string) : bool :=
  negb (existsb (String.eqb k) keys).

(** The keys of a list in the order in which they are first seen. *)
Fixpoint first_seen (l : list string) : list string :=
  match l with
  | [] => []
  | k :: l' => k :: filter (fun k' => negb (String.eqb k k')) (first_seen l')
  end.

Section Comparators.
Context {num : Type} `{Number num} {A : Type}.
Variable comparefn : A -> A -> num.

(** How the sort reads a comparator result: positive, negative, or
    neither (zero; a NaN counts as zero). *)
Definition order (x y : A) : comparison :=
  if num_positive (comparefn x y) then Gt
  else if num_negative (comparefn x y) then Lt
  else Eq.

(** A consistent comparator for the values of [S], the condition under
    which ECMAScript defines the sort order. *)
Definition consistent (S : list A) : Prop :=
  forall a b c, In a S -> In b S -> In c S ->
    order a a = Eq
    /\ (order a b = Eq -> order b a = Eq)
    /\ (order a b = Eq -> order b c = Eq -> order a c = Eq)
    /\ (order a b = Lt -> order b c = Lt -> order a c = Lt)
    /\ (order a b = Gt -> order b c = Gt -> order a c = Gt).

Definition same (o o' : comparison) : bool :=
  match o, o' with
  | Eq, Eq | Lt, Lt | Gt, Gt => true
  | _, _ => false
  end.

(** The same condition as a check over a finite list. *)
Definition consistentb (S : list A) : bool :=
  forallb (fun a =>
    same (order a a) Eq &&
    forallb (fun b =>
      implb (same (order a b) Eq) (same (order b a) Eq) &&
      forallb (fun c =>
        implb (same (order a b) Eq && same (order b c) Eq) (same (order a c) Eq)
        && implb (same (order a b) Lt && same (order b c) Lt) (same (order a c) Lt)
        && implb (same (order a b) Gt && same (order b c) Gt) (same (order a c) Gt)) S) S) S.

(** [y] is not ranked above [x]: the comparator does not ask for [x]
    behind [y]. *)
Definition not_after (x y : A) : Prop := order x y <> Gt.

(** What the language asks of [Array.prototype.sort]: the result holds the
    same elements, no element stands behind one the comparator ranks after
    it, and elements that compare equal keep their order. *)
Definition stable_sort_of (l m : list A) : Prop :=
  Permutation m l
  /\ StronglySorted not_after m
  /\ (forall x y, before x y l -> order x y = Eq -> before x y m).
End Comparators.

Section PerCategory.
Context {num : Type} `{Number num}.
#[local] Open Scope js_scope.

(** The running value of one property: [(o[k] || 0) + t.amount] over the
    transactions of one category, from the first on. *)
Definition accumulate (start : option num) (l : list (transaction num)) : option num :=
  fold_left (fun s t => Some (or_zero s + amount t)) l start.

(** The transactions of category [c]. *)
Definition of_category (c : string) (txs : list (transaction num)) : list (transaction num) :=
  filter (fun t => String.eqb (category_key t) c) txs.

(** The names under which an object literal [{}] has a member without any
    assignment: what it inherits from [Object.prototype]. *)
Definition inherited (k : string) : bool :=
  String.eqb k "__proto__" || existsb (String.eqb k) JSObject.prototype_functions.

(** The names under which an assignment of a number or a string stores a
    property: all but the name of the prototype accessor. *)
Definition stored_name (k : string) : bool := negb (String.eqb k "__proto__").

(** No category of the list goes by such a name. *)
Definition plain_categories (txs : list (transaction num)) : Prop :=
  forall t, In t txs -> inherited (category_key t) = false.

(** A ranking in order of descending per-category sum, as the
    specification words it: the first three of a list that holds every
    category of the transactions once, each with the running total of its
    amounts, and in which no category stands behind one with a smaller
    total. *)
Definition descending_ranking (txs : list (transaction num))
  (ranking : list (string * num)) : Prop :=
  exists sorted : list (string * num),
    ranking = firstn 3 sorted
    /\ NoDup (map fst sorted)
    /\ (forall c v, In (c, v) sorted <->
                    In c (map category_key txs)
                    /\ Some v = accumulate None (of_category c txs))
    /\ StronglySorted (fun a b => num_positive (snd b - snd a) = false) sorted.

(** The entries of an object of totals read as numbers. *)
Definition numbers (l : list (string * stored num)) : list (string * num) :=
  map (fun e => (fst e, ToNumber (snd e))) l.

(** One line of a ranking as the summary shows it: the rank, the category,
    its total to two decimals and its share of the total spend in percent,
    to one decimal. *)
Definition shown_rank (totalSpend : num) (e : string * num) (i : nat) : string :=
  (Text.dec (N.of_nat (i + 1)) ++ ". **" ++ fst e ++ "**: `" ++ num_toFixed (snd e) 2
   ++ "` *(" ++ num_toFixed (snd e / totalSpend * num_of_nat 100) 1 ++ "%)*")%string.

(** The totals of an object added up as numbers, in [Object.entries]
    order. *)
Definition sum_values (o : JSObject.t (stored num)) : num :=
  fold_left (fun sum e => sum + ToNumber (snd e)) (JSObject.entries o) num_zero.

(** Every date that is present and not empty has a week key. *)
Definition dates_valid (env : environment num) (txs : list (transaction num)) : Prop :=
  forall t, In t txs ->
    match date t with
    | Some (String c d) => week_key env (String c d) <> None
    | _ => True
    end.

(** The prompts submitted to the text provider during a request. *)
Fixpoint submitted (log : list (call num)) : list (prompt num) :=
  match log with
  | [] => []
  | GenerateContent _ p :: log' => p :: submitted log'
  | _ :: log' => submitted log'
  end.

(** The number of raw transactions a prompt embeds. *)
Definition raw_lines (p : prompt num) : nat :=
  match p with
  | JsonPrompt _ _ shown _ => List.length shown
  | SummaryPrompt _ _ _ _ _ details => List.length details
  end.

(** The provider call raises in the handler of [ServerFallback]: it
    rejects, returns nothing usable, or returns blank text. *)
Definition raises (o : ai_outcome) : bool :=
  match o with
  | AiText text => negb (Text.nonempty text) || Text.blank text
  | _ => true
  end.

(** The provider call raises in the handler of [ServerIndex]. *)
Definition raises_index (o : ai_outcome) : bool :=
  match o with
  | AiText text => negb (Text.nonempty text)
  | _ => true
  end.


(** A request the gate lets through: its token and the user it resolves to. *)
Definition authorized (env : environment num) (req : request num)
  (token : string) (user : string) : Prop :=
  bearer_token (authorization req) = Some token /\ token <> EmptyString
  /\ getUser env token = AuthUser user.

(** The last text drawn on a streamed report: its total line. *)
Definition printed_total (o : outcome num) : option value :=
  match sent o with
  | Some (Pdf document) => List.last (map Some (texts document)) None
  | _ => None
  end.

(** The calls the gate itself makes. *)
Definition gate_calls (req : request num) : list (call num) :=
  match bearer_token (authorization req) with
  | None | Some EmptyString => []
  | Some token => [GetUser token]
  end.
End PerCategory.

(** ** Sums without rounding *)

(** The rational sum of the totals of an object; none when a total is a
    string, an infinity or NaN. *)
Fixpoint exact_total (l : list (string * stored float)) : option Qc :=
  match l with
  | [] => Some (Q2Qc 0)
  | (_, Amount x) :: l' =>
      match Binary64.value x, exact_total l' with
      | Some a, Some b => Some (Qcplus a b)
      | _, _ => None
      end
  | (_, Glued _ _) :: _ => None
  end.

(** Every [+] of the loop that fills [categoryTotals] and [totalAmount]
    adds two numbers and is computed without rounding: [acc] is the state
    of the loop before the transactions [txs]. *)
Fixpoint additions_exact (acc : JSObject.t (stored float) * float)
  (txs : list (transaction float)) : bool :=
  match txs with
  | [] => true
  | t :: txs' =>
      match JSObject.get (category_key t) (fst acc) with
      | JSObject.Own (Amount x) => Binary64.exact_sum (or_zero (Some x)) (amount t)
      | JSObject.Missing => Binary64.exact_sum (or_zero None) (amount t)
      | _ => false
      end
      && Binary64.exact_sum (snd acc) (amount t)
      && additions_exact (tally acc t) txs'
  end.

(** ** Sample data *)

Definition purchase {num : Type} (a : num) (c : string) : transaction num :=
  {| amount := a; category := Some c; category_name := None; date := None;
     description := None; categories := None |}.

(** The example of the specification: 12.50 for Food and 40 for Rent. *)
Definition food_and_rent : list (transaction float) :=
  [purchase 12.5%float "Food"; purchase 40%float "Rent"].

(** Amounts whose binary64 sums depend on the order of the additions. *)
Definition dimes : list (transaction float) :=
  [purchase 0.1%float "A"; purchase 0.2%float "B"; purchase 0.3%float "B"].


(** After such a pair the total of the category starts again from zero. *)
Definition restarted : list (transaction float) :=
  [purchase infinity "A"; purchase neg_infinity "A"; purchase 5%float "A"].

(** A category that goes by the name of the prototype accessor. *)
Definition hidden : list (transaction float) :=
  [purchase 100%float "__proto__"; purchase 1%float "Food"].

(** A category that goes by the name of an inherited function. *)
Definition shadowing : list (transaction float) :=
  [purchase 5%float "constructor"].

(** A row as the client-side report selects it: with the joined category. *)
Definition joined_row (a : float) (c : string) : transaction float :=
  {| amount := a; category := None; category_name := None; date := Some "2024-05-01";
     description := None; categories := Some (Some c) |}.

(** The example of the specification as such rows. *)
Definition joined_rows : list (transaction float) :=
  [joined_row 12.5%float "Food"; joined_row 40%float "Rent"].

(** Two categories with equal totals, the second named by an array index. *)
Definition food_and_seven : list (transaction float) :=
  [purchase 10%float "Food"; purchase 10%float "7"].

Definition twenty_one : list (transaction float) :=
  repeat (purchase 1%float "Food") 21.

(** A dated transaction. *)
Definition dated (d : string) : transaction float :=
  {| amount := 5%float; category := Some "Food"; category_name := None;
     date := Some d; description := None; categories := Some (Some "Food") |}.

Definition outage : error := {| name := "Error"; message := "fetch failed" |}.

(** A runtime whose text provider is down (or answers [reply]), whose auth
    provider accepts the token [good] only, and whose [Date] rejects the
    text [Invalid]. *)
Definition sample_environment (reply : ai_outcome) : environment float :=
  {| getUser := fun token =>
       if String.eqb token "good" then AuthUser "student"
       else AuthError {| name := "AuthApiError"; message := "invalid JWT" |};
     generateContent := fun _ _ => reply;
     week_key := fun d => if String.eqb d "Invalid" then None else Some d;
     toLocaleDateString := fun v => ToString v;
     month_name := fun _ month => ToString month;
     type_error_message := fun member =>
       "Cannot read properties of undefined (reading '" ++ member ++ "')";
     development := false;
     stack_of := fun e => message e |}.

Definition sample_request (auth : option string) (txs : transactions_member float)
  : request float :=
  {| authorization := auth;
     body := {| transactions := txs; month := Str "May"; year := Num 2024%float;
                summary := Undefined; other := [("total", Num 1000000%float)] |} |}.

(** * Properties *)

(** ** Lists: [before] *)
Section BeforeFacts.
Context {A : Type}.

Lemma before_In (x y : A) (l : list A) : before x y l -> In x l /\ In y l.
Proof.
  induction 1 as [l Hy | z l _ [IHx IHy]]; simpl; auto.
Qed.

Lemma before_app_l (x y : A) (l1 l2 : list A) : before x y l1 -> before x y (l1 ++ l2).
Proof.
  induction 1 as [l Hy | z l _ IH]; simpl.
  - constructor. apply in_or_app. now left.
  - now constructor.
Qed.

Lemma before_app_inv (x y : A) (l1 l2 : list A) :
  before x y (l1 ++ l2) ->
  before x y l1 \/ before x y l2 \/ (In x l1 /\ In y l2).
Proof.
  induction l1 as [| z l1 IH]; simpl; intros Hb.
  - right. now left.
  - inversion Hb as [l Hy Heq | z' l Hb' Heq]; subst.
    + apply in_app_or in Hy. destruct Hy as [Hy | Hy].
      * left. now constructor.
      * right. right. split; [now left | exact Hy].
    + destruct (IH Hb') as [H1 | [H2 | [Hx Hy]]].
      * left. now constructor.
      * right. now left.
      * right. right. split; [now right | exact Hy].
Qed.

Lemma before_firstn (x y : A) (n : nat) (l : list A) :
  before x y (firstn n l) -> before x y l.
Proof.
  intros Hb. rewrite <- (firstn_skipn n l). now apply before_app_l.
Qed.

Lemma before_filter (f : A -> bool) (x y : A) (l : list A) :
  before x y (filter f l) -> before x y l.
Proof.
  induction l as [| z l IH]; simpl; intros Hb.
  - inversion Hb.
  - destruct (f z).
    + inversion Hb as [l' Hy Heq | z' l' Hb' Heq]; subst.
      * constructor. apply filter_In in Hy. tauto.
      * constructor 2. now apply IH.
    + constructor 2. now apply IH.
Qed.

Lemma before_map {B : Type} (g : A -> B) (x y : A) (l : list A) :
  before x y l -> before (g x) (g y) (map g l).
Proof.
  induction 1 as [l Hy | z l _ IH]; simpl.
  - constructor. now apply in_map.
  - now constructor.
Qed.

Lemma before_total (x y : A) (l : list A) :
  In x l -> In y l -> x <> y -> before x y l \/ before y x l.
Proof.
  induction l as [| z l IH]; simpl; [tauto |].
  intros [Hx | Hx] [Hy | Hy] Hne; subst.
  - congruence.
  - left. now constructor.
  - right. now constructor.
  - destruct (IH Hx Hy Hne); [left | right]; now constructor.
Qed.

Lemma before_NoDup_asym (x y : A) (l : list A) :
  NoDup l -> before x y l -> before y x l -> False.
Proof.
  induction 1 as [| z l Hz Hnd IH]; intros Hxy Hyx.
  - inversion Hxy.
  - inversion Hxy as [l1 Hy E1 | z1 l1 Hb1 E1]; subst;
      inversion Hyx as [l2 Hx E2 | z2 l2 Hb2 E2]; subst.
    + contradiction.
    + apply before_In in Hb2. tauto.
    + apply before_In in Hb1. tauto.
    + auto.
Qed.

Lemma before_NoDup_neq (x y : A) (l : list A) : NoDup l -> before x y l -> x <> y.
Proof.
  induction 1 as [| z l Hz Hnd IH]; intros Hxy.
  - inversion Hxy.
  - inversion Hxy as [l1 Hy E1 | z1 l1 Hb1 E1]; subst.
    + intros ->. contradiction.
    + auto.
Qed.

End BeforeFacts.

(** ** [Array.prototype.sort] *)
Section SortFacts.
Context {num : Type} `{Number num} {A : Type}.
Variable comparefn : A -> A -> num.

#[local] Abbreviation insert := (JSArray.insert comparefn).
#[local] Abbreviation sort := (JSArray.sort comparefn).
#[local] Abbreviation ord := (order comparefn).

Lemma order_Gt (x y : A) : ord x y = Gt <-> num_positive (comparefn x y) = true.
Proof.
  unfold order.
  destruct (num_positive (comparefn x y)); [tauto |].
  destruct (num_negative (comparefn x y)); split; discriminate.
Qed.

Lemma insert_perm (x : A) (l : list A) : Permutation (insert x l) (x :: l).
Proof.
  induction l as [| y l IH]; simpl; [reflexivity |].
  destruct (num_positive (comparefn x y)); [| reflexivity].
  rewrite IH. apply perm_swap.
Qed.

Lemma sort_perm (l : list A) : Permutation (sort l) l.
Proof.
  induction l as [| x l IH]; simpl; [reflexivity |].
  rewrite insert_perm. now constructor.
Qed.

Lemma sort_In (a : A) (l : list A) : In a (sort l) <-> In a l.
Proof.
  split; apply Permutation_in; [| symmetry]; apply sort_perm.
Qed.

Lemma consistentb_sound (S : list A) :
  consistentb comparefn S = true -> consistent comparefn S.
Proof.
  unfold consistentb. intros Hb a b c Ha Hbin Hc.
  rewrite forallb_forall in Hb. specialize (Hb a Ha).
  apply andb_prop in Hb. destruct Hb as [Hrefl Hb].
  rewrite forallb_forall in Hb. specialize (Hb b Hbin).
  apply andb_prop in Hb. destruct Hb as [Hsym Hb].
  rewrite forallb_forall in Hb. specialize (Hb c Hc).
  apply andb_prop in Hb. destruct Hb as [Hb Hgt].
  apply andb_prop in Hb. destruct Hb as [Heq Hlt].
  destruct (ord a a), (ord a b), (ord b a), (ord b c), (ord a c);
    simpl in *; repeat split; intros; congruence.
Qed.

(** In a consistent comparator the two readings of a pair agree. *)
Lemma order_antisym (S : list A) (a b : A) :
  consistent comparefn S -> In a S -> In b S -> ord a b = Gt -> ord b a = Lt.
Proof.
  intros Hc Ha Hb Hgt.
  destruct (Hc a b a Ha Hb Ha) as (Hrefl & _ & _ & _ & Hgg).
  destruct (Hc b a b Hb Ha Hb) as (_ & Hsym & _).
  destruct (ord b a) eqn:Hba; [| reflexivity |].
  - rewrite (Hsym eq_refl) in Hgt. discriminate.
  - rewrite (Hgg Hgt eq_refl) in Hrefl. discriminate.
Qed.

Lemma order_antisym' (S : list A) (a b : A) :
  consistent comparefn S -> In a S -> In b S -> ord a b = Lt -> ord b a = Gt.
Proof.
  intros Hc Ha Hb Hlt.
  destruct (Hc a b a Ha Hb Ha) as (Hrefl & _ & _ & Hll & _).
  destruct (Hc b a b Hb Ha Hb) as (_ & Hsym & _).
  destruct (ord b a) eqn:Hba; [| | reflexivity].
  - rewrite (Hsym eq_refl) in Hlt. discriminate.
  - rewrite (Hll Hlt eq_refl) in Hrefl. discriminate.
Qed.

Lemma not_after_trans (S : list A) (a b c : A) :
  consistent comparefn S -> In a S -> In b S -> In c S ->
  not_after comparefn a b -> not_after comparefn b c -> not_after comparefn a c.
Proof.
  unfold not_after. intros Hc Ha Hb Hcin Hab Hbc Hac.
  pose proof (order_antisym S a c Hc Ha Hcin Hac) as Hca.
  destruct (Hc a b c Ha Hb Hcin) as (_ & _ & Hee & Hll & _).
  destruct (Hc c a b Hcin Ha Hb) as (_ & _ & _ & Hll' & _).
  destruct (Hc b c a Hb Hcin Ha) as (_ & _ & _ & Hll'' & _).
  destruct (Hc a b a Ha Hb Ha) as (_ & Hsym & _).
  destruct (Hc b c b Hb Hcin Hb) as (_ & Hsym' & _).
  destruct (ord a b) eqn:Eab; [| | congruence];
    destruct (ord b c) eqn:Ebc; try congruence.
  - rewrite (Hee eq_refl eq_refl) in Hac. discriminate.
  - (* a = b, b < c, c < a: then b < a *)
    pose proof (Hll'' eq_refl Hca) as Hba. rewrite (Hsym eq_refl) in Hba. discriminate.
  - (* a < b, b = c, c < a: then c < b *)
    pose proof (Hll' Hca eq_refl) as Hcb. rewrite (Hsym' eq_refl) in Hcb. discriminate.
  - rewrite (Hll eq_refl eq_refl) in Hac. discriminate.
Qed.

Lemma insert_In (a x : A) (l : list A) : In a (insert x l) <-> In a (x :: l).
Proof.
  split; apply Permutation_in; [| symmetry]; apply insert_perm.
Qed.

Lemma insert_sorted (S : list A) (x : A) (l : list A) :
  consistent comparefn S -> In x S -> incl l S ->
  StronglySorted (not_after comparefn) l ->
  StronglySorted (not_after comparefn) (insert x l).
Proof.
  intros Hc Hx Hl Hs. induction Hs as [| y l Hs IH Hall]; simpl.
  - repeat constructor.
  - assert (Hy : In y S) by (apply Hl; now left).
    assert (Hl' : incl l S) by (intros z Hz; apply Hl; now right).
    destruct (num_positive (comparefn x y)) eqn:Hpos.
    + constructor; [now apply IH |].
      apply Forall_forall. intros z Hz. apply (proj1 (insert_In _ _ _)) in Hz.
      destruct Hz as [<- | Hz].
      * unfold not_after. apply order_Gt in Hpos.
        rewrite (order_antisym S x y Hc Hx Hy Hpos). discriminate.
      * rewrite Forall_forall in Hall. now apply Hall.
    + assert (Hxy : not_after comparefn x y).
      { unfold not_after. rewrite order_Gt. congruence. }
      constructor; [now constructor |].
      constructor; [exact Hxy |].
      apply Forall_forall. intros z Hz. rewrite Forall_forall in Hall.
      apply (not_after_trans S x y z); auto.
Qed.

(** Under a consistent comparator the result is sorted: no element is
    ranked above one that stands before it. *)
Lemma sort_sorted (l : list A) :
  consistent comparefn l -> StronglySorted (not_after comparefn) (sort l).
Proof.
  intros Hc.
  assert (Hgen : forall l', incl l' l -> StronglySorted (not_after comparefn) (sort l')).
  { induction l' as [| x l' IH]; intros Hi; simpl; [constructor |].
    apply (insert_sorted l); [exact Hc | | |].
    - apply Hi. now left.
    - intros z Hz. apply Hi. right. apply (proj1 (sort_In z l')). exact Hz.
    - apply IH. intros z Hz. apply Hi. now right. }
  apply Hgen. apply incl_refl.
Qed.

Lemma insert_before_old (x a b : A) (l : list A) :
  before a b l -> before a b (insert x l).
Proof.
  induction 1 as [l Hb | z l Hb IH]; simpl.
  - destruct (num_positive (comparefn x a)).
    + constructor. apply insert_In. now right.
    + constructor 2. now constructor.
  - destruct (num_positive (comparefn x z)); constructor 2; [exact IH |].
    now constructor 2.
Qed.

Lemma insert_before_new (x y : A) (l : list A) :
  In y l -> not_after comparefn x y -> before x y (insert x l).
Proof.
  unfold not_after. rewrite order_Gt.
  induction l as [| z l IH]; simpl; [tauto |].
  intros Hy Hxy. destruct (num_positive (comparefn x z)) eqn:Hpos.
  - destruct Hy as [-> | Hy]; [congruence |]. constructor 2. now apply IH.
  - now constructor.
Qed.

(** The sort is stable: two elements the comparator does not ask to swap
    keep their ord. *)
Lemma sort_stable (x y : A) (l : list A) :
  before x y l -> not_after comparefn x y -> before x y (sort l).
Proof.
  induction 1 as [l Hy | z l Hb IH]; intros Hxy; simpl.
  - apply insert_before_new; [now apply sort_In | exact Hxy].
  - apply insert_before_old. now apply IH.
Qed.

(** Conversely, two tied elements stand in the result as in the input. *)
Lemma sort_tie_order (x y : A) (l : list A) :
  NoDup l -> before x y (sort l) -> not_after comparefn y x -> before x y l.
Proof.
  intros Hnd Hb Hyx.
  assert (Hnd' : NoDup (sort l)).
  { eapply Permutation_NoDup; [symmetry; apply sort_perm | exact Hnd]. }
  pose proof (before_NoDup_neq _ _ _ Hnd' Hb) as Hne.
  destruct (before_In _ _ _ Hb) as [Hx Hy].
  apply (proj1 (sort_In _ _)) in Hx. apply (proj1 (sort_In _ _)) in Hy.
  destruct (before_total x y l Hx Hy Hne) as [Hxy | Hxy]; [exact Hxy |].
  exfalso. apply (before_NoDup_asym x y (sort l) Hnd' Hb).
  now apply sort_stable.
Qed.
End SortFacts.

(** ** The sort is determined by the comparator *)
Section SortIsDetermined.
Context {num : Type} `{Number num} {A : Type}.
Variable comparefn : A -> A -> num.

Lemma sort_is_stable_sort (l : list A) :
  consistent comparefn l -> stable_sort_of comparefn l (JSArray.sort comparefn l).
Proof.
  intros Hc. repeat split.
  - apply sort_perm.
  - now apply sort_sorted.
  - intros x y Hb Heq. apply sort_stable; [exact Hb |].
    unfold not_after. congruence.
Qed.

Lemma strongly_sorted_before (m : list A) (x y : A) :
  StronglySorted (not_after comparefn) m -> before x y m -> not_after comparefn x y.
Proof.
  induction 1 as [| z m Hs IH Hall]; intros Hb; inversion Hb; subst.
  - rewrite Forall_forall in Hall. now apply Hall.
  - now apply IH.
Qed.

(** In a stable sort of a list without repetition, which of two elements
    stands first is fixed by the comparator and by the input. *)
Lemma before_determined (l m : list A) (x y : A) :
  NoDup l -> consistent comparefn l -> stable_sort_of comparefn l m ->
  (before x y m <->
   In x l /\ In y l /\ x <> y
   /\ (order comparefn x y = Lt \/ (order comparefn x y = Eq /\ before x y l))).
Proof.
  intros Hnd Hc (Hperm & Hsorted & Hstable).
  assert (Hnd' : NoDup m) by (eapply Permutation_NoDup; [symmetry |]; eassumption).
  split.
  - intros Hb. destruct (before_In _ _ _ Hb) as [Hx Hy].
    apply (Permutation_in _ Hperm) in Hx. apply (Permutation_in _ Hperm) in Hy.
    pose proof (before_NoDup_neq _ _ _ Hnd' Hb) as Hne.
    repeat split; try assumption.
    pose proof (strongly_sorted_before m x y Hsorted Hb) as Hna. unfold not_after in Hna.
    destruct (order comparefn x y) eqn:E; [right | now left | congruence].
    split; [reflexivity |].
    destruct (before_total x y l Hx Hy Hne) as [Hxy | Hyx]; [exact Hxy |].
    exfalso. apply (before_NoDup_asym x y m Hnd' Hb). apply Hstable; [exact Hyx |].
    destruct (Hc x y x Hx Hy Hx) as (_ & Hsym & _). now apply Hsym.
  - intros (Hx & Hy & Hne & [Hlt | [Heq Hb]]); [| now apply Hstable].
    assert (Hx' : In x m) by (apply (Permutation_in _ (Permutation_sym Hperm)); exact Hx).
    assert (Hy' : In y m) by (apply (Permutation_in _ (Permutation_sym Hperm)); exact Hy).
    destruct (before_total x y m Hx' Hy' Hne) as [Hxy | Hyx]; [exact Hxy |].
    exfalso. apply (strongly_sorted_before m y x Hsorted Hyx).
    apply (order_antisym' comparefn l x y Hc Hx Hy Hlt).
Qed.

Lemma same_before_eq (m1 m2 : list A) :
  NoDup m1 -> NoDup m2 ->
  (forall x, In x m1 <-> In x m2) ->
  (forall x y, before x y m1 <-> before x y m2) ->
  m1 = m2.
Proof.
  intros Hnd1. revert m2. induction Hnd1 as [| a m1 Ha Hnd1 IH]; intros m2 Hnd2 Hin Hbef.
  - destruct m2 as [| b m2]; [reflexivity |].
    exfalso. apply (proj2 (Hin b)). now left.
  - destruct m2 as [| b m2].
    + exfalso. apply (proj1 (Hin a)). now left.
    + inversion Hnd2 as [| ? ? Hb Hnd2']; subst.
      assert (Hab : a = b).
      { destruct (proj1 (Hin a) (or_introl eq_refl)) as [Heq | Hin2]; [now symmetry |].
        exfalso. assert (Hba : before b a (b :: m2)) by now constructor.
        apply Hbef in Hba. inversion Hba; subst.
        - apply Hb. exact Hin2.
        - match goal with Hl : before _ _ m1 |- _ => apply before_In in Hl; tauto end. }
      subst b. f_equal. apply IH; [exact Hnd2' | |].
      * intros x. split; intros Hx.
        -- destruct (proj1 (Hin x) (or_intror Hx)) as [<- | Hx']; [contradiction | exact Hx'].
        -- destruct (proj2 (Hin x) (or_intror Hx)) as [<- | Hx']; [contradiction | exact Hx'].
      * intros x y. split; intros Hxy.
        -- assert (Hl : before x y (a :: m2)) by (apply Hbef; now constructor 2).
           inversion Hl; subst; [| assumption].
           apply before_In in Hxy. tauto.
        -- assert (Hl : before x y (a :: m1)) by (apply Hbef; now constructor 2).
           inversion Hl; subst; [| assumption].
           apply before_In in Hxy. tauto.
Qed.

(** Under a consistent comparator every stable sort of a list without
    repetition is the one computed by [JSArray.sort]. *)
Lemma stable_sort_unique (l m : list A) :
  NoDup l -> consistent comparefn l -> stable_sort_of comparefn l m ->
  m = JSArray.sort comparefn l.
Proof.
  intros Hnd Hc Hm. pose proof (sort_is_stable_sort l Hc) as Hs.
  apply same_before_eq.
  - eapply Permutation_NoDup; [symmetry; apply Hm | exact Hnd].
  - eapply Permutation_NoDup; [symmetry; apply sort_perm | exact Hnd].
  - intros x. split; intros Hx.
    + apply sort_In. now apply (Permutation_in _ (proj1 Hm)).
    + apply (proj1 (sort_In _ _ _)) in Hx.
      now apply (Permutation_in _ (Permutation_sym (proj1 Hm))).
  - intros x y. rewrite (before_determined l m x y Hnd Hc Hm).
    rewrite (before_determined l _ x y Hnd Hc Hs). reflexivity.
Qed.
End SortIsDetermined.

(** ** Objects used as maps *)
Section ObjectFacts.
Context {V : Type}.
Implicit Types (o : JSObject.t V) (k : string) (v : V).

Lemma own_store_same k v o : JSObject.own k (JSObject.store k v o) = Some v.
Proof.
  induction o as [| [k' v'] o IH]; simpl.
  - now rewrite String.eqb_refl.
  - destruct (String.eqb k' k) eqn:E; simpl; rewrite E; [reflexivity | exact IH].
Qed.

Lemma own_store_other k k' v o :
  k <> k' -> JSObject.own k (JSObject.store k' v o) = JSObject.own k o.
Proof.
  intros Hne. induction o as [| [k0 v0] o IH]; simpl.
  - destruct (String.eqb k' k) eqn:E; [| reflexivity].
    apply String.eqb_eq in E. congruence.
  - destruct (String.eqb k0 k') eqn:E; simpl.
    + apply String.eqb_eq in E. subst k0.
      destruct (String.eqb k' k) eqn:E'; [| reflexivity].
      apply String.eqb_eq in E'. congruence.
    + now rewrite IH.
Qed.

Lemma own_None_keys k o : JSObject.own k o = None <-> ~ In k (map fst o).
Proof.
  induction o as [| [k' v'] o IH]; simpl; [tauto |].
  destruct (String.eqb k' k) eqn:E.
  - apply String.eqb_eq in E. split; [discriminate | tauto].
  - apply String.eqb_neq in E. rewrite IH. tauto.
Qed.

(** Writing an own property creates a key last, or leaves the keys as
    they are. *)
Lemma keys_store k v o :
  map fst (JSObject.store k v o) =
  match JSObject.own k o with
  | Some _ => map fst o
  | None => (map fst o ++ [k])%list
  end.
Proof.
  induction o as [| [k' v'] o IH]; simpl; [reflexivity |].
  destruct (String.eqb k' k) eqn:E; simpl; [reflexivity |].
  rewrite IH. now destruct (JSObject.own k o).
Qed.

Lemma store_NoDup k v o : NoDup (map fst o) -> NoDup (map fst (JSObject.store k v o)).
Proof.
  intros Hnd. rewrite keys_store. destruct (JSObject.own k o) eqn:E; [exact Hnd |].
  apply own_None_keys in E.
  apply NoDup_app; [exact Hnd | repeat constructor; simpl; tauto |].
  intros x Hx [<- | []]. contradiction.
Qed.

Lemma own_In k v o : NoDup (map fst o) -> (In (k, v) o <-> JSObject.own k o = Some v).
Proof.
  induction o as [| [k' v'] o IH]; simpl; intros Hnd.
  - split; [tauto | discriminate].
  - inversion Hnd as [| ? ? Hk Hnd']; subst.
    destruct (String.eqb k' k) eqn:E.
    + apply String.eqb_eq in E. subst k'. split.
      * intros [Heq | Hin]; [congruence |].
        exfalso. apply Hk. now apply (in_map fst) in Hin.
      * intros Heq. left. congruence.
    + apply String.eqb_neq in E. rewrite <- (IH Hnd'). split.
      * intros [Heq | Hin]; [congruence | exact Hin].
      * tauto.
Qed.

(** An assignment under the name of the prototype accessor stores
    nothing; under any other name it writes the own property. *)
Lemma set_proto v o : JSObject.set "__proto__" v o = o.
Proof. reflexivity. Qed.

Lemma set_store k v o : k <> "__proto__" -> JSObject.set k v o = JSObject.store k v o.
Proof.
  intros Hne. unfold JSObject.set.
  destruct (String.eqb k "__proto__") eqn:E; [| reflexivity].
  apply String.eqb_eq in E. contradiction.
Qed.

Lemma own_set_same k v o :
  k <> "__proto__" -> JSObject.own k (JSObject.set k v o) = Some v.
Proof. intros Hne. rewrite set_store by exact Hne. apply own_store_same. Qed.

Lemma own_set_other k k' v o :
  k <> k' -> JSObject.own k (JSObject.set k' v o) = JSObject.own k o.
Proof.
  intros Hne. unfold JSObject.set.
  destruct (String.eqb k' "__proto__"); [reflexivity | now apply own_store_other].
Qed.

Lemma set_NoDup k v o : NoDup (map fst o) -> NoDup (map fst (JSObject.set k v o)).
Proof.
  intros Hnd. unfold JSObject.set.
  destruct (String.eqb k "__proto__"); [exact Hnd | now apply store_NoDup].
Qed.

Lemma insert_index_perm (n : N) (p : string * V) l :
  Permutation (JSObject.insert_index n p l) ((n, p) :: l).
Proof.
  induction l as [| [n' p'] l IH]; simpl; [reflexivity |].
  destruct (n <? n')%N; [reflexivity |].
  rewrite IH. apply perm_swap.
Qed.

Lemma index_properties_perm o :
  Permutation (map snd (JSObject.index_properties o))
              (filter (fun p => JSObject.is_index (fst p)) o).
Proof.
  induction o as [| [k v] o IH]; simpl; [reflexivity |].
  unfold JSObject.is_index at 1. simpl.
  destruct (JSObject.array_index k) as [n |]; [| exact IH].
  rewrite insert_index_perm. simpl. now constructor.
Qed.

Lemma filter_split (f : string * V -> bool) o :
  Permutation (filter f o ++ filter (fun p => negb (f p)) o) o.
Proof.
  induction o as [| p o IH]; simpl; [reflexivity |].
  destruct (f p); simpl.
  - now constructor.
  - rewrite <- Permutation_middle. now constructor.
Qed.

(** [Object.entries] lists every own property once. *)
Lemma entries_perm o : Permutation (JSObject.entries o) o.
Proof.
  unfold JSObject.entries. rewrite index_properties_perm.
  apply (filter_split (fun p => JSObject.is_index (fst p))).
Qed.

Lemma entries_NoDup o : NoDup (map fst o) -> NoDup (map fst (JSObject.entries o)).
Proof.
  intros Hnd. eapply Permutation_NoDup; [| exact Hnd].
  apply Permutation_map. symmetry. apply entries_perm.
Qed.

Lemma NoDup_keys_NoDup (l : list (string * V)) : NoDup (map fst l) -> NoDup l.
Proof. apply NoDup_map_inv. Qed.

Lemma index_part_is_index o (p : string * V) :
  In p (map snd (JSObject.index_properties o)) -> JSObject.is_index (fst p) = true.
Proof.
  intros Hin. apply (Permutation_in _ (index_properties_perm o)) in Hin.
  apply filter_In in Hin. tauto.
Qed.

(** The array-index part of the entries is in ascending numeric order. *)
Lemma insert_index_sorted (n : N) (p : string * V) l :
  StronglySorted (fun a b => (fst a <= fst b)%N) l ->
  StronglySorted (fun a b => (fst a <= fst b)%N) (JSObject.insert_index n p l).
Proof.
  induction 1 as [| [n' p'] l Hs IH Hall]; simpl.
  - repeat constructor.
  - destruct (n <? n')%N eqn:E.
    + apply N.ltb_lt in E. constructor; [now constructor |].
      constructor; [simpl; lia |].
      rewrite Forall_forall in *. intros z Hz. specialize (Hall z Hz). simpl in *. lia.
    + apply N.ltb_ge in E. constructor; [exact IH |].
      rewrite Forall_forall in *. intros z Hz.
      apply (Permutation_in _ (insert_index_perm n p l)) in Hz.
      destruct Hz as [<- | Hz]; [simpl; lia | now apply Hall].
Qed.

Lemma index_properties_sorted o :
  StronglySorted (fun a b => (fst a <= fst b)%N) (JSObject.index_properties o).
Proof.
  induction o as [| [k v] o IH]; simpl; [constructor |].
  destruct (JSObject.array_index k); [now apply insert_index_sorted | exact IH].
Qed.

Lemma index_properties_tag o (n : N) (p : string * V) :
  In (n, p) (JSObject.index_properties o) -> JSObject.array_index (fst p) = Some n.
Proof.
  induction o as [| [k v] o IH]; simpl; [tauto |].
  destruct (JSObject.array_index k) as [m |] eqn:E; [| exact IH].
  intros Hin. apply (Permutation_in _ (insert_index_perm m (k, v) _)) in Hin.
  destruct Hin as [Heq | Hin]; [| now apply IH].
  inversion Heq; subst. exact E.
Qed.

Lemma sorted_before_le {B : Type} (R : B -> B -> Prop) (x y : B) (l : list B) :
  StronglySorted R l -> before x y l -> R x y.
Proof.
  induction 1 as [| z l Hs IH Hall]; intros Hb; inversion Hb; subst.
  - rewrite Forall_forall in Hall. now apply Hall.
  - now apply IH.
Qed.

Lemma before_map_inv {B C : Type} (g : B -> C) (x y : C) (l : list B) :
  before x y (map g l) -> exists a b, g a = x /\ g b = y /\ before a b l.
Proof.
  induction l as [| z l IH]; simpl; intros Hb; inversion Hb; subst.
  - match goal with Hy : In _ (map g l) |- _ => apply in_map_iff in Hy; destruct Hy as (b & Hgb & Hin) end.
    exists z, b. repeat split; [exact Hgb | now constructor].
  - match goal with Hb' : before _ _ (map g l) |- _ => destruct (IH Hb') as (a & b & Ha & Hb0 & Hab) end.
    exists a, b. repeat split; auto. now constructor.
Qed.

(** How two own properties stand in [Object.entries]: array indices
    first and ascending, the other keys as they were created. *)
Lemma entries_before o (p q : string * V) :
  NoDup (map fst o) ->
  before p q (JSObject.entries o) ->
  match JSObject.array_index (fst p), JSObject.array_index (fst q) with
  | Some i, Some j => (i < j)%N
  | Some _, None => True
  | None, Some _ => False
  | None, None => before p q o
  end.
Proof.
  intros Hnd Hb.
  pose proof (entries_NoDup o Hnd) as Hnd'.
  pose proof (before_NoDup_neq _ _ _ (NoDup_keys_NoDup _ Hnd') Hb) as Hne.
  unfold JSObject.entries in Hb. apply before_app_inv in Hb.
  destruct Hb as [Hb | [Hb | [Hp Hq]]].
  - apply before_map_inv in Hb. destruct Hb as ([i p'] & [j q'] & Hp & Hq & Hb).
    simpl in Hp, Hq. subst p' q'.
    destruct (before_In _ _ _ Hb) as [Hip Hiq].
    rewrite (index_properties_tag o i p Hip), (index_properties_tag o j q Hiq).
    pose proof (sorted_before_le _ _ _ _ (index_properties_sorted o) Hb) as Hle.
    simpl in Hle. destruct (N.eq_dec i j) as [-> | Hij]; [| lia].
    exfalso.
    assert (Hkp : fst p = fst q).
    { pose proof (index_properties_tag o j p Hip) as E1.
      pose proof (index_properties_tag o j q Hiq) as E2.
      unfold JSObject.array_index in E1, E2.
      destruct (fst p) as [| c1 s1] eqn:Ep; [discriminate |].
      destruct (fst q) as [| c2 s2] eqn:Eq; [discriminate |].
      destruct (JSObject.digits_value (String c1 s1) 0) as [n1 |]; [| discriminate].
      destruct (JSObject.digits_value (String c2 s2) 0) as [n2 |]; [| discriminate].
      destruct (String.eqb (Text.dec n1) (String c1 s1)) eqn:D1; simpl in E1;
        [| discriminate].
      destruct (String.eqb (Text.dec n2) (String c2 s2)) eqn:D2; simpl in E2;
        [| discriminate].
      destruct (n1 <? 4294967295)%N; [| discriminate].
      destruct (n2 <? 4294967295)%N; [| discriminate].
      apply String.eqb_eq in D1, D2. congruence. }
    assert (Hp' : In p (JSObject.entries o)).
    { unfold JSObject.entries. apply in_or_app. left.
      apply in_map_iff. exists (j, p). split; [reflexivity | exact Hip]. }
    assert (Hq' : In q (JSObject.entries o)).
    { unfold JSObject.entries. apply in_or_app. left.
      apply in_map_iff. exists (j, q). split; [reflexivity | exact Hiq]. }
    apply Hne.
    apply (Permutation_in _ (entries_perm o)) in Hp'.
    apply (Permutation_in _ (entries_perm o)) in Hq'.
    destruct p as [kp vp], q as [kq vq]. simpl in Hkp. subst kq.
    apply (own_In _ _ _ Hnd) in Hp'. apply (own_In _ _ _ Hnd) in Hq'. congruence.
  - destruct (before_In _ _ _ Hb) as [Hp Hq].
    apply filter_In in Hp. apply filter_In in Hq.
    destruct Hp as [_ Hp], Hq as [_ Hq]. unfold JSObject.is_index in Hp, Hq.
    destruct (JSObject.array_index (fst p)); [discriminate |].
    destruct (JSObject.array_index (fst q)); [discriminate |].
    now apply before_filter in Hb.
  - apply index_part_is_index in Hp. apply filter_In in Hq. destruct Hq as [_ Hq].
    unfold JSObject.is_index in Hp, Hq.
    destruct (JSObject.array_index (fst p)); [| discriminate].
    destruct (JSObject.array_index (fst q)); [discriminate | exact I].
Qed.
End ObjectFacts.

(** ** The statistics of insight generation *)
Section StatisticsFacts.
Context {num : Type} `{Number num}.
#[local] Open Scope js_scope.
Implicit Types (txs : list (transaction num)) (o : JSObject.t (stored num)) (t : num).

Lemma fold_tally_snd txs o t :
  snd (fold_left tally txs (o, t)) = fold_left (fun sum x => sum + amount x) txs t.
Proof.
  revert o t. induction txs as [| x txs IH]; intros o t; simpl; [reflexivity | apply IH].
Qed.

(** The running total is the sum of the amounts, added from the left. *)
Lemma total_is_sum txs : snd (category_totals txs) = sum_amounts txs.
Proof. apply fold_tally_snd. Qed.

Lemma fold_tally_NoDup txs o t :
  NoDup (map fst o) -> NoDup (map fst (fst (fold_left tally txs (o, t)))).
Proof.
  revert o t. induction txs as [| x txs IH]; intros o t Hnd; simpl; [exact Hnd |].
  apply IH. now apply set_NoDup.
Qed.

Lemma totals_NoDup txs : NoDup (map fst (fst (category_totals txs))).
Proof. apply fold_tally_NoDup. constructor. Qed.

Lemma inherited_stored (c : string) : inherited c = false -> c <> "__proto__".
Proof.
  unfold inherited. intros Hc ->. discriminate.
Qed.

(** Under a name that nothing is inherited by, [(o[k] || 0) + amount] is
    a number: the own property, or zero, plus the amount. *)
Lemma plus_amount_plain (c : string) o (s : option num) (a : num) :
  inherited c = false -> JSObject.own c o = option_map Amount s ->
  plus_amount (JSObject.get c o) a = Amount (or_zero s + a).
Proof.
  intros Hc Ho. unfold JSObject.get. rewrite Ho.
  destruct s as [x |]; [reflexivity |].
  unfold inherited in Hc. apply orb_false_iff in Hc. destruct Hc as [Hp Hf].
  cbn [option_map]. now rewrite Hp, Hf.
Qed.

(** Grouping: the property of a key holds the running value over the
    transactions of that category, in their order. *)
Lemma fold_tally_own (c : string) txs o t (s : option num) :
  inherited c = false -> JSObject.own c o = option_map Amount s ->
  JSObject.own c (fst (fold_left tally txs (o, t))) =
  option_map Amount (accumulate s (of_category c txs)).
Proof.
  intros Hc. revert o t s. induction txs as [| x txs IH]; intros o t s Ho; simpl;
    [exact Ho |].
  unfold of_category. simpl.
  destruct (String.eqb (category_key x) c) eqn:E; simpl.
  - apply String.eqb_eq in E. apply IH. rewrite E.
    rewrite (plus_amount_plain c o s (amount x) Hc Ho).
    apply own_set_same. now apply inherited_stored.
  - apply String.eqb_neq in E. apply IH.
    rewrite own_set_other by congruence. exact Ho.
Qed.

Lemma totals_own (c : string) txs :
  inherited c = false ->
  JSObject.own c (fst (category_totals txs)) =
  option_map Amount (accumulate None (of_category c txs)).
Proof. intros Hc. now apply (fold_tally_own c txs JSObject.empty num_zero None). Qed.

Lemma filter_filter_keys (f g : string -> bool) (l : list string) :
  (forall k, f k = true -> g k = true) -> filter f (filter g l) = filter f l.
Proof.
  intros Hfg. induction l as [| k l IH]; simpl; [reflexivity |].
  destruct (g k) eqn:Eg; simpl.
  - destruct (f k); now rewrite IH.
  - destruct (f k) eqn:Ef; [| exact IH]. apply Hfg in Ef. congruence.
Qed.

Lemma unseen_false keys k : In k keys -> unseen keys k = false.
Proof.
  intros Hin. unfold unseen. apply negb_false_iff. apply existsb_exists.
  exists k. split; [exact Hin | apply String.eqb_refl].
Qed.

Lemma unseen_true keys k : ~ In k keys -> unseen keys k = true.
Proof.
  intros Hin. unfold unseen. apply negb_true_iff.
  destruct (existsb (String.eqb k) keys) eqn:E; [| reflexivity].
  apply existsb_exists in E. destruct E as (k' & Hk' & E).
  apply String.eqb_eq in E. subst k'. contradiction.
Qed.

(** The totals do not depend on the running total of the amounts, and a
    transaction of the category [__proto__] leaves them as they are. *)
Lemma fold_tally_fst txs o t t' :
  fst (fold_left tally txs (o, t)) = fst (fold_left tally txs (o, t')).
Proof.
  revert o t t'. induction txs as [| x txs IH]; intros o t t'; simpl; [reflexivity |].
  apply IH.
Qed.

Lemma fold_tally_skip txs o t :
  fst (fold_left tally txs (o, t)) =
  fst (fold_left tally (filter (fun x => stored_name (category_key x)) txs) (o, t)).
Proof.
  revert o t. induction txs as [| x txs IH]; intros o t; simpl; [reflexivity |].
  unfold stored_name at 1. destruct (String.eqb (category_key x) "__proto__") eqn:E; simpl.
  - apply String.eqb_eq in E. rewrite E, set_proto.
    rewrite <- IH. apply fold_tally_fst.
  - apply IH.
Qed.

(** The keys of the totals are created in first-seen order. *)
Lemma fold_tally_keys txs o t :
  (forall x, In x txs -> category_key x <> "__proto__") ->
  map fst (fst (fold_left tally txs (o, t))) =
  (map fst o ++ filter (unseen (map fst o)) (first_seen (map category_key txs)))%list.
Proof.
  revert o t. induction txs as [| x txs IH]; intros o t Hst; simpl.
  - now rewrite app_nil_r.
  - rewrite IH by (intros y Hy; apply Hst; now right).
    rewrite set_store by (apply Hst; now left).
    rewrite keys_store. set (k := category_key x). set (ks := map fst o).
    destruct (JSObject.own k o) eqn:E.
    + assert (Hin : In k ks).
      { destruct (in_dec string_dec k ks) as [Hin | Hin]; [exact Hin |].
        apply own_None_keys in Hin. congruence. }
      rewrite (unseen_false ks k Hin). f_equal.
      symmetry. apply filter_filter_keys. intros k' Hk'.
      apply negb_true_iff. apply String.eqb_neq. intros ->.
      rewrite (unseen_false ks k' Hin) in Hk'. discriminate.
    + apply own_None_keys in E. fold ks in E.
      rewrite (unseen_true ks k E). rewrite <- app_assoc. simpl. do 2 f_equal.
      transitivity (filter (unseen (ks ++ [k])) (first_seen (map category_key txs))).
      * reflexivity.
      * rewrite <- (filter_filter_keys (unseen (ks ++ [k]))
                      (fun k' => negb (String.eqb k k'))).
        -- apply filter_ext_in. intros k' Hk'.
           apply filter_In in Hk'. destruct Hk' as [_ Hk'].
           apply negb_true_iff in Hk'. rewrite String.eqb_sym in Hk'.
           unfold unseen. rewrite existsb_app. simpl. now rewrite Hk', !orb_false_r.
        -- intros k' Hk'. unfold unseen in Hk'. rewrite existsb_app in Hk'. simpl in Hk'.
           rewrite orb_false_r in Hk'. apply negb_true_iff in Hk'.
           apply orb_false_iff in Hk'. destruct Hk' as [_ Hk'].
           rewrite String.eqb_sym. now rewrite Hk'.
Qed.

Lemma filter_swap {A : Type} (f g : A -> bool) (l : list A) :
  filter f (filter g l) = filter g (filter f l).
Proof.
  induction l as [| x l IH]; simpl; [reflexivity |].
  destruct (f x) eqn:Ef, (g x) eqn:Eg; simpl; rewrite ?Ef, ?Eg, ?IH; reflexivity.
Qed.

Lemma first_seen_filter (p : string -> bool) (l : list string) :
  first_seen (filter p l) = filter p (first_seen l).
Proof.
  induction l as [| k l IH]; simpl; [reflexivity |].
  destruct (p k) eqn:E; simpl; rewrite ?E.
  - rewrite IH. f_equal. apply filter_swap.
  - rewrite IH. symmetry. apply filter_filter_keys.
    intros k' Hk'. apply negb_true_iff. apply String.eqb_neq. intros ->. congruence.
Qed.

Lemma filter_all {A : Type} (p : A -> bool) (l : list A) :
  (forall x, In x l -> p x = true) -> filter p l = l.
Proof.
  induction l as [| x l IH]; intros Hall; simpl; [reflexivity |].
  rewrite (Hall x (or_introl eq_refl)). f_equal. apply IH.
  intros y Hy. apply Hall. now right.
Qed.

Lemma totals_keys txs :
  map fst (fst (category_totals txs)) =
  filter stored_name (first_seen (map category_key txs)).
Proof.
  unfold category_totals. rewrite fold_tally_skip, fold_tally_keys.
  - cbn [JSObject.empty map app]. rewrite filter_all by reflexivity.
    rewrite <- first_seen_filter. f_equal.
    induction txs as [| x txs IH]; simpl; [reflexivity |].
    destruct (stored_name (category_key x)); simpl; now rewrite IH.
  - intros x Hx. apply filter_In in Hx. destruct Hx as [_ Hx].
    unfold stored_name in Hx. apply negb_true_iff in Hx. now apply String.eqb_neq.
Qed.

Lemma first_seen_In (k : string) (l : list string) : In k (first_seen l) -> In k l.
Proof.
  induction l as [| k' l IH]; simpl; [tauto |].
  intros [-> | Hin]; [now left |].
  apply filter_In in Hin. right. apply IH. tauto.
Qed.

(** Under plain names every category of the list has its key. *)
Lemma totals_keys_plain txs :
  plain_categories txs ->
  map fst (fst (category_totals txs)) = first_seen (map category_key txs).
Proof.
  intros Hp. rewrite totals_keys. apply filter_all.
  intros k Hk. apply first_seen_In in Hk.
  apply in_map_iff in Hk. destruct Hk as (x & <- & Hx).
  unfold stored_name. apply negb_true_iff. apply String.eqb_neq.
  apply inherited_stored. now apply Hp.
Qed.

Lemma accumulate_some (s : option num) (l : list (transaction num)) :
  l <> [] -> exists x, accumulate s l = Some x.
Proof.
  destruct l as [| t l]; [congruence |]. intros _. unfold accumulate. simpl.
  generalize (or_zero s + amount t). induction l as [| t' l IH]; intros x; simpl.
  - now exists x.
  - apply IH.
Qed.

Lemma top_In (totals : JSObject.t (stored num)) (e : string * stored num) :
  In e (top_categories totals) -> In e totals.
Proof.
  unfold top_categories, JSArray.slice0. intros Hin.
  assert (Hs : In e (JSArray.sort descending (JSObject.entries totals))).
  { rewrite <- (firstn_skipn 3 (JSArray.sort descending _)). apply in_or_app. now left. }
  apply (proj1 (sort_In _ _ _)) in Hs.
  now apply (Permutation_in _ (entries_perm _)) in Hs.
Qed.

(** Under plain names every total is a number: the running value over
    the transactions of its category. *)
Lemma totals_numeric txs (c : string) (v : stored num) :
  plain_categories txs -> In (c, v) (fst (category_totals txs)) ->
  In c (map category_key txs)
  /\ exists x, v = Amount x /\ Some x = accumulate None (of_category c txs).
Proof.
  intros Hp Hin.
  assert (Hc : In c (map category_key txs)).
  { apply first_seen_In. rewrite <- (totals_keys_plain txs Hp).
    now apply (in_map fst) in Hin. }
  split; [exact Hc |].
  apply (own_In _ _ _ (totals_NoDup txs)) in Hin.
  apply in_map_iff in Hc. destruct Hc as (t & Hk & Ht).
  rewrite totals_own in Hin by (rewrite <- Hk; now apply Hp).
  destruct (accumulate None (of_category c txs)) as [x |]; [| discriminate].
  exists x. split; [simpl in Hin; congruence | reflexivity].
Qed.

(** And every category of the list has its total. *)
Lemma totals_has txs (c : string) :
  plain_categories txs -> In c (map category_key txs) ->
  exists x, In (c, Amount x) (fst (category_totals txs))
            /\ Some x = accumulate None (of_category c txs).
Proof.
  intros Hp Hc. apply in_map_iff in Hc. destruct Hc as (t & Hk & Ht).
  assert (Hne : of_category c txs <> []).
  { intros Hnil. assert (Hin : In t (of_category c txs)).
    { apply filter_In. split; [exact Ht | now apply String.eqb_eq]. }
    rewrite Hnil in Hin. contradiction. }
  destruct (accumulate_some None _ Hne) as [x Hx].
  exists x. split; [| now rewrite Hx].
  apply (own_In _ _ _ (totals_NoDup txs)).
  rewrite totals_own by (rewrite <- Hk; now apply Hp).
  now rewrite Hx.
Qed.

Lemma collect_values {A B : Type} (f : A -> result B) (g : A -> B) (l : list A) :
  (forall a, In a l -> f a = Value (g a)) -> collect (map f l) = Value (map g l).
Proof.
  induction l as [| a l IH]; intros Hf; simpl; [reflexivity |].
  rewrite (Hf a (or_introl eq_refl)), IH; [reflexivity |].
  intros x Hx. apply Hf. now right.
Qed.

(** A list of numeric totals is printed without an exception. *)
Lemma shown_numeric (l : list (string * stored num)) :
  (forall e, In e l -> exists x, snd e = Amount x) ->
  ServerFallback.shown_categories l =
  Value (map (fun e : string * num => (fst e, num_toFixed (snd e) 2)) (numbers l)).
Proof.
  intros Hnum. unfold ServerFallback.shown_categories, numbers. rewrite map_map.
  apply collect_values. intros [c v] Hin.
  destruct (Hnum _ Hin) as [x Hx]. simpl in Hx. subst v. reflexivity.
Qed.

Lemma lines_numeric (totalAmount : num) (l : list (string * stored num)) (i : nat) :
  (forall e, In e l -> exists x, snd e = Amount x) ->
  collect (JSArray.mapi_from i (ServerFallback.ranking_line totalAmount) l) =
  Value (JSArray.mapi_from i (shown_rank totalAmount) (numbers l)).
Proof.
  revert i. induction l as [| [c v] l IH]; intros i Hnum; simpl; [reflexivity |].
  destruct (Hnum (c, v) (or_introl eq_refl)) as [x Hx]. simpl in Hx. subst v.
  simpl. rewrite IH; [reflexivity |].
  intros e He. apply Hnum. now right.
Qed.

Lemma first_category_numbers (l : list (string * stored num)) :
  ServerFallback.first_category l =
  match numbers l with (cat, _) :: _ => cat | [] => "undefined" end.
Proof. now destruct l as [| [c v] l]. Qed.

Lemma first_index_seen (c : string) (l : list string) :
  In c (first_seen l) -> exists j, first_index c l = Some j.
Proof.
  induction l as [| k l IH]; simpl; [tauto |].
  intros Hin. destruct (String.eqb k c) eqn:E; [now exists 0%nat |].
  destruct Hin as [-> | Hin]; [rewrite String.eqb_refl in E; discriminate |].
  apply filter_In in Hin. destruct Hin as [Hin _].
  destruct (IH Hin) as [j Hj]. rewrite Hj. now exists (S j).
Qed.

(** In first-seen order a key stands before another only when its first
    occurrence comes first. *)
Lemma first_seen_before (c1 c2 : string) (l : list string) :
  before c1 c2 (first_seen l) ->
  exists i j, first_index c1 l = Some i /\ first_index c2 l = Some j /\ (i < j)%nat.
Proof.
  revert c1 c2. induction l as [| k l IH]; intros c1 c2 Hb; simpl in *.
  - inversion Hb.
  - inversion Hb as [l' Hy Heq | z l' Hb' Heq]; subst.
    + rewrite String.eqb_refl.
      apply filter_In in Hy. destruct Hy as [Hy Hne].
      apply negb_true_iff in Hne. rewrite Hne.
      destruct (first_index_seen c2 l Hy) as [j Hj].
      rewrite Hj. exists 0%nat, (S j). repeat split. lia.
    + destruct (before_In _ _ _ Hb') as [H1 H2].
      apply filter_In in H1. apply filter_In in H2.
      destruct H1 as [_ H1], H2 as [_ H2].
      apply negb_true_iff in H1. apply negb_true_iff in H2. rewrite H1, H2.
      apply before_filter in Hb'. destruct (IH _ _ Hb') as (i & j & Hi & Hj & Hlt).
      rewrite Hi, Hj. exists (S i), (S j). repeat split. lia.
Qed.
End StatisticsFacts.

(** ** The token gate *)
Section GateFacts.
Context {num : Type}.
Variable env : environment num.

(** What the gate does, by cases on the header and on the auth provider. *)
Lemma gate_cases (req : request num) (next : string -> Run num response) :
  handle (authenticateJWT env req next) =
  match bearer_token (authorization req) with
  | None | Some EmptyString => {| sent := Some unauthorized; calls := [] |}
  | Some token =>
      match getUser env token with
      | AuthUser user =>
          match next user [GetUser token] with
          | (Value r, log) => {| sent := Some r; calls := log |}
          | (Thrown _, log) => {| sent := None; calls := log |}
          end
      | _ => {| sent := Some unauthorized; calls := [GetUser token] |}
      end
  end.
Proof.
  unfold handle, authenticateJWT.
  destruct (bearer_token (authorization req)) as [[| c token] |]; try reflexivity.
  unfold bind, try_catch, perform, ret, throw. simpl.
  destruct (getUser env (String c token)); reflexivity.
Qed.


Lemma gate_calls_quiet (req : request num) :
  submitted (gate_calls req) = [] /\ ~ In NewPDFDocument (gate_calls req).
Proof.
  unfold gate_calls.
  destruct (bearer_token (authorization req)) as [[| c token] |]; simpl;
    split; try reflexivity; try tauto; intros [Hc | []]; discriminate.
Qed.
End GateFacts.



(** ** The insights handlers *)
Section InsightFacts.
Context {num : Type} `{Number num}.
Variable env : environment num.

Lemma fallback_invalid (req : request num) (log : list (call num)) (v : value) :
  transactions (body req) = NotArray v ->
  ServerFallback.generate_insights env req log =
  (Value (Json 400 (error_body "Invalid transactions data")), log).
Proof.
  intros Htx. unfold ServerFallback.generate_insights, try_catch. now rewrite Htx.
Qed.

Lemma fallback_empty (req : request num) (log : list (call num)) :
  transactions (body req) = ArrayOf [] ->
  ServerFallback.generate_insights env req log =
  (Value (Json 200 (insights_only "No transactions available for analysis")), log).
Proof.
  intros Htx. unfold ServerFallback.generate_insights, try_catch. now rewrite Htx.
Qed.

(** What a prompt that could be composed holds. *)
Lemma compose_prompt_value (b : request_body num) (txs : list (transaction num))
  (p : prompt num) :
  ServerFallback.compose_prompt b txs = Value p ->
  exists shown,
    ServerFallback.shown_categories (top_categories (fst (category_totals txs)))
    = Value shown
    /\ p = SummaryPrompt (month b) (year b) (num_toFixed (snd (category_totals txs)) 2)
             (List.length txs) shown (map ServerFallback.details_line txs).
Proof.
  unfold ServerFallback.compose_prompt.
  destruct (category_totals txs) as [categoryTotals totalAmount]. simpl.
  destruct (ServerFallback.shown_categories (top_categories categoryTotals))
    as [shown | e]; [| discriminate].
  intros Heq. inversion Heq. now exists shown.
Qed.

(** The [catch] block: the fallback summary, or what [getFallbackAnalysis]
    throws. *)
Lemma fallback_catch (req : request num) (log : list (call num)) :
  bind (lift (ServerFallback.getFallbackAnalysis env (transactions (body req))
                (month (body req)) (year (body req))))
       (fun fallbackAnalysis =>
          ret (Json 200 (ServerFallback.fallback_reply fallbackAnalysis))) log =
  (match ServerFallback.getFallbackAnalysis env (transactions (body req))
           (month (body req)) (year (body req)) with
   | Value text => Value (Json 200 (ServerFallback.fallback_reply text))
   | Thrown e => Thrown e
   end, log).
Proof.
  unfold bind, lift, ret.
  now destruct (ServerFallback.getFallbackAnalysis env (transactions (body req))
                  (month (body req)) (year (body req))).
Qed.

(** When the provider call raises, the [catch] block answers with the
    fallback summary, or throws what [getFallbackAnalysis] throws. *)
Lemma fallback_failure (req : request num) (log : list (call num))
  (txs : list (transaction num)) (p : prompt num) :
  transactions (body req) = ArrayOf txs -> txs <> [] ->
  ServerFallback.compose_prompt (body req) txs = Value p ->
  raises (generateContent env ServerFallback.model_name p) = true ->
  ServerFallback.generate_insights env req log =
  (match ServerFallback.getFallbackAnalysis env (ArrayOf txs)
           (month (body req)) (year (body req)) with
   | Value text => Value (Json 200 (ServerFallback.fallback_reply text))
   | Thrown e => Thrown e
   end,
   (log ++ [GenerateContent ServerFallback.model_name p])%list).
Proof.
  intros Htx Hne Hp Hraise.
  pose proof (fallback_catch req (log ++ [GenerateContent ServerFallback.model_name p]))
    as Hcatch.
  rewrite Htx in Hcatch.
  unfold ServerFallback.generate_insights, try_catch. rewrite Htx.
  destruct txs as [| t txs]; [congruence |].
  rewrite Hp.
  destruct (category_totals (t :: txs)) as [categoryTotals totalAmount] eqn:Etot.
  unfold bind at 1 2 3. unfold perform, lift, ret, throw. cbn [fst snd].
  destruct (generateContent env ServerFallback.model_name p) as [e | | | e | text];
    cbn in Hraise |- *; try exact Hcatch.
  rewrite Hraise. exact Hcatch.
Qed.

(** When the prompt cannot be composed, the provider is not called and the
    [catch] block runs at once. *)
Lemma fallback_unprompted (req : request num) (log : list (call num))
  (txs : list (transaction num)) (e : error) :
  transactions (body req) = ArrayOf txs -> txs <> [] ->
  ServerFallback.compose_prompt (body req) txs = Thrown e ->
  ServerFallback.generate_insights env req log =
  (match ServerFallback.getFallbackAnalysis env (ArrayOf txs)
           (month (body req)) (year (body req)) with
   | Value text => Value (Json 200 (ServerFallback.fallback_reply text))
   | Thrown e' => Thrown e'
   end, log).
Proof.
  intros Htx Hne Hp.
  pose proof (fallback_catch req log) as Hcatch. rewrite Htx in Hcatch.
  unfold ServerFallback.generate_insights, try_catch. rewrite Htx.
  destruct txs as [| t txs]; [congruence |].
  rewrite Hp.
  destruct (category_totals (t :: txs)) as [categoryTotals totalAmount] eqn:Etot.
  unfold bind at 1. unfold lift. exact Hcatch.
Qed.

(** When the provider returns text that is not blank, the handler answers
    with that text and the metadata. *)
Lemma fallback_success (req : request num) (log : list (call num))
  (txs : list (transaction num)) (p : prompt num) (text : string) :
  transactions (body req) = ArrayOf txs -> txs <> [] ->
  ServerFallback.compose_prompt (body req) txs = Value p ->
  generateContent env ServerFallback.model_name p = AiText text ->
  raises (AiText text) = false ->
  exists shown,
    ServerFallback.shown_categories (top_categories (fst (category_totals txs)))
    = Value shown
    /\ ServerFallback.generate_insights env req log =
       (Value (Json 200 (ServerFallback.success_reply text txs (snd (category_totals txs))
                           shown)),
        (log ++ [GenerateContent ServerFallback.model_name p])%list).
Proof.
  intros Htx Hne Hp Hreply Hok.
  destruct (compose_prompt_value _ _ _ Hp) as (shown & Hshown & _).
  exists shown. split; [exact Hshown |].
  unfold ServerFallback.generate_insights, try_catch. rewrite Htx.
  destruct txs as [| t txs]; [congruence |].
  rewrite Hp.
  destruct (category_totals (t :: txs)) as [categoryTotals totalAmount] eqn:Etot.
  cbn [fst snd] in Hshown |- *.
  unfold bind, perform, lift, ret, throw. rewrite Hreply. simpl in Hok.
  rewrite Hok, Hshown. reflexivity.
Qed.

Lemma index_invalid (req : request num) (log : list (call num)) (v : value) :
  transactions (body req) = NotArray v ->
  ServerIndex.generate_insights env req log =
  (Value (Json 400 (error_body "Invalid transactions data")), log).
Proof.
  intros Htx. unfold ServerIndex.generate_insights, try_catch. now rewrite Htx.
Qed.

Lemma index_empty (req : request num) (log : list (call num)) :
  transactions (body req) = ArrayOf [] ->
  ServerIndex.generate_insights env req log =
  (Value (Json 200 (insights_only "No transactions available for analysis")), log).
Proof.
  intros Htx. unfold ServerIndex.generate_insights, try_catch. now rewrite Htx.
Qed.

(** In [src/server/index.js] a provider call that raises is answered with
    status 500 and the message of the error. *)
Lemma index_failure (req : request num) (log : list (call num))
  (txs : list (transaction num)) :
  transactions (body req) = ArrayOf txs -> txs <> [] ->
  let prompt := ServerIndex.compose_prompt (body req) txs in
  raises_index (generateContent env ServerIndex.model_name prompt) = true ->
  exists e,
    ServerIndex.generate_insights env req log =
    (Value (Json 500 (ServerIndex.failure_reply env e)),
     (log ++ [GenerateContent ServerIndex.model_name prompt])%list).
Proof.
  intros Htx Hne prompt Hraise.
  unfold ServerIndex.generate_insights, try_catch. rewrite Htx.
  destruct txs as [| t txs]; [congruence |].
  fold prompt. unfold bind, perform, lift, ret, throw. simpl.
  destruct (generateContent env ServerIndex.model_name prompt) as [e | | | e | text];
    simpl in *; try (eexists; reflexivity).
  rewrite Hraise. eexists; reflexivity.
Qed.

Lemma index_success (req : request num) (log : list (call num))
  (txs : list (transaction num)) (text : string) :
  transactions (body req) = ArrayOf txs -> txs <> [] ->
  let prompt := ServerIndex.compose_prompt (body req) txs in
  generateContent env ServerIndex.model_name prompt = AiText text ->
  raises_index (AiText text) = false ->
  ServerIndex.generate_insights env req log =
  (Value (Json 200 (ServerIndex.success_reply text (body req) txs)),
   (log ++ [GenerateContent ServerIndex.model_name prompt])%list).
Proof.
  intros Htx Hne prompt Hreply Hok.
  unfold ServerIndex.generate_insights, try_catch. rewrite Htx.
  destruct txs as [| t txs]; [congruence |].
  fold prompt. unfold bind, perform, lift, ret, throw. simpl.
  fold prompt. rewrite Hreply. simpl in Hok. rewrite Hok. reflexivity.
Qed.

Lemma gate_passes (req : request num) (token user : string)
  (next : string -> Run num response) :
  authorized env req token user ->
  handle (authenticateJWT env req next) =
  match next user [GetUser token] with
  | (Value r, log) => {| sent := Some r; calls := log |}
  | (Thrown _, log) => {| sent := None; calls := log |}
  end.
Proof.
  intros (Ht & Hne & Hu). rewrite gate_cases, Ht.
  destruct token as [| c token]; [congruence |]. now rewrite Hu.
Qed.
End InsightFacts.

(** ** The fallback summary *)
Section FallbackFacts.
Context {num : Type} `{Number num}.
Variable env : environment num.

Lemma weekly_thrown (txs : list (transaction num)) (e : error) :
  fold_left (ServerFallback.weekly env) txs (Thrown e) = Thrown e.
Proof. induction txs as [| t txs IH]; simpl; [reflexivity | exact IH]. Qed.

Lemma weekly_valid (txs : list (transaction num)) (acc : JSObject.t (stored num)) :
  dates_valid env txs ->
  exists weeklySpending,
    fold_left (ServerFallback.weekly env) txs (Value acc) = Value weeklySpending.
Proof.
  revert acc. induction txs as [| t txs IH]; intros acc Hd; simpl.
  - now exists acc.
  - assert (Ht := Hd t (or_introl eq_refl)).
    assert (Hd' : dates_valid env txs) by (intros x Hx; apply Hd; now right).
    destruct (date t) as [[| c d] |]; try now apply IH.
    destruct (week_key env (String c d)); [now apply IH | congruence].
Qed.

(** A date the runtime cannot parse makes the weekly loop throw. *)
Lemma weekly_invalid (txs : list (transaction num)) (t : transaction num)
  (c : ascii) (d : string) (r : result (JSObject.t (stored num))) :
  In t txs -> date t = Some (String c d) -> week_key env (String c d) = None ->
  exists e, fold_left (ServerFallback.weekly env) txs r = Thrown e.
Proof.
  intros Hin Hdate Hkey. revert r.
  induction txs as [| x txs IH]; intros r; [contradiction |].
  simpl. destruct Hin as [-> | Hin]; [| now apply IH].
  destruct r as [acc | e]; simpl.
  - rewrite Hdate, Hkey. rewrite weekly_thrown. now eexists.
  - rewrite weekly_thrown. now eexists.
Qed.

(** The numeric ranking of a list with plain names. *)
Lemma ranking_numeric (txs : list (transaction num)) (e : string * stored num) :
  plain_categories txs -> In e (top_categories (fst (category_totals txs))) ->
  exists x, snd e = Amount x.
Proof.
  intros Hp Hin. apply top_In in Hin. destruct e as [c v].
  destruct (totals_numeric txs c v Hp Hin) as (_ & x & -> & _). now exists x.
Qed.

(** Every summary that [getFallbackAnalysis] returns for a non-empty list
    with plain names is the template filled with the sum of the amounts and
    the lines of the ranking. *)
Lemma fallback_shape (txs : list (transaction num)) (month year : value) (text : string) :
  txs <> [] ->
  (forall e, In e (top_categories (fst (category_totals txs))) -> exists x, snd e = Amount x) ->
  ServerFallback.getFallbackAnalysis env (ArrayOf txs) month year = Value text ->
  exists weeks,
    let ranking := numbers (top_categories (fst (category_totals txs))) in
    text = ServerFallback.summary_text txs month year (sum_amounts txs)
             (JSArray.mapi (shown_rank (sum_amounts txs)) ranking)
             match ranking with (cat, _) :: _ => cat | [] => "undefined" end
             weeks.
Proof.
  intros Hne Hnum. unfold ServerFallback.getFallbackAnalysis.
  destruct txs as [| t txs]; [congruence |].
  rewrite <- total_is_sum.
  destruct (category_totals (t :: txs)) as [categories totalAmount].
  cbn [fst snd] in *.
  destruct (fold_left (ServerFallback.weekly env) (t :: txs) (Value JSObject.empty))
    as [weeklySpending | e]; [| discriminate].
  unfold JSArray.mapi. rewrite lines_numeric by exact Hnum.
  rewrite first_category_numbers.
  intros Heq. inversion Heq. now eexists.
Qed.

Lemma fallback_returns (txs : list (transaction num)) (month year : value) :
  txs <> [] ->
  (forall e, In e (top_categories (fst (category_totals txs))) -> exists x, snd e = Amount x) ->
  dates_valid env txs ->
  exists text, ServerFallback.getFallbackAnalysis env (ArrayOf txs) month year = Value text.
Proof.
  intros Hne Hnum Hd. unfold ServerFallback.getFallbackAnalysis.
  destruct txs as [| t txs]; [congruence |].
  destruct (category_totals (t :: txs)) as [categories totalAmount].
  cbn [fst snd] in *.
  destruct (weekly_valid (t :: txs) JSObject.empty Hd) as [w Hw].
  rewrite Hw. unfold JSArray.mapi.
  rewrite lines_numeric by exact Hnum. now eexists.
Qed.

(** A ranking that the prompt could print holds numbers only. *)
Lemma shown_is_numeric (l : list (string * stored num)) (shown : list (string * string)) :
  ServerFallback.shown_categories l = Value shown ->
  forall e, In e l -> exists x, snd e = Amount x.
Proof.
  unfold ServerFallback.shown_categories. revert shown.
  induction l as [| [c v] l IH]; intros shown Hs e He; [contradiction |].
  simpl in Hs. destruct v as [x | name amounts]; [| discriminate]. simpl in Hs.
  destruct (collect _) as [rest | err] eqn:Erest in Hs; [| discriminate].
  destruct He as [<- | He]; [now exists x |].
  now apply (IH rest Erest).
Qed.

Lemma composed_is_numeric (b : request_body num) (txs : list (transaction num))
  (p : prompt num) :
  ServerFallback.compose_prompt b txs = Value p ->
  forall e, In e (top_categories (fst (category_totals txs))) -> exists x, snd e = Amount x.
Proof.
  intros Hp. destruct (compose_prompt_value b txs p Hp) as (shown & Hshown & _).
  exact (shown_is_numeric _ shown Hshown).
Qed.

Lemma fallback_throws (txs : list (transaction num)) (month year : value)
  (t : transaction num) (c : ascii) (d : string) :
  In t txs -> date t = Some (String c d) -> week_key env (String c d) = None ->
  exists e, ServerFallback.getFallbackAnalysis env (ArrayOf txs) month year = Thrown e.
Proof.
  intros Hin Hdate Hkey. unfold ServerFallback.getFallbackAnalysis.
  destruct txs as [| x txs]; [contradiction |].
  destruct (category_totals (x :: txs)) as [categories totalAmount].
  destruct (weekly_invalid (x :: txs) t c d (Value JSObject.empty) Hin Hdate Hkey)
    as [e He].
  rewrite He. now eexists.
Qed.

(** Under plain names the prompt is composed without an exception. *)
Lemma compose_prompt_plain (b : request_body num) (txs : list (transaction num)) :
  plain_categories txs ->
  ServerFallback.compose_prompt b txs =
  Value (SummaryPrompt (month b) (year b) (num_toFixed (sum_amounts txs) 2)
           (List.length txs)
           (map (fun e : string * num => (fst e, num_toFixed (snd e) 2))
              (numbers (top_categories (fst (category_totals txs)))))
           (map ServerFallback.details_line txs)).
Proof.
  intros Hp. unfold ServerFallback.compose_prompt. rewrite <- total_is_sum.
  pose proof (ranking_numeric txs) as Hnum.
  destruct (category_totals txs) as [categoryTotals totalAmount]. cbn [fst snd] in *.
  rewrite shown_numeric by (intros e He; now apply Hnum). reflexivity.
Qed.
End FallbackFacts.

(** The slip in the [catch] block: when the provider call raises and a
    transaction carries a date the runtime cannot parse,
    [getFallbackAnalysis] throws out of the [catch] block and the handler
    sends no response. *)
Lemma fallback_is_lost_on_an_invalid_date :
  forall {num : Type} `{Number num} (env : environment num) (req : request num)
         (token user : string) (txs : list (transaction num)) (p : prompt num)
         (t : transaction num) (c : ascii) (d : string),
    authorized env req token user ->
    transactions (body req) = ArrayOf txs ->
    In t txs -> date t = Some (String c d) -> week_key env (String c d) = None ->
    ServerFallback.compose_prompt (body req) txs = Value p ->
    raises (generateContent env ServerFallback.model_name p) = true ->
    sent (ServerFallback.post_generate_insights env req) = None.
Proof.
  intros num N env req token user txs p t c d Hauth Htx Hin Hdate Hkey Hp Hraise.
  unfold ServerFallback.post_generate_insights.
  rewrite (gate_passes env req token user _ Hauth).
  assert (Hne : txs <> []) by (intros ->; contradiction).
  rewrite (fallback_failure env req _ txs p Htx Hne Hp Hraise).
  destruct (fallback_throws env txs (month (body req)) (year (body req)) t c d
              Hin Hdate Hkey) as [e He].
  now rewrite He.
Qed.

Lemma summary_text_begins {num : Type} `{Number num} (txs : list (transaction num))
  (month year : value) (total : num) (lines : list string) (top : string) (weeks : nat) :
  exists rest,
    ServerFallback.summary_text txs month year total lines top weeks =
    "## 📊 Expense Analysis for " ++ ToString month ++ " " ++ ToString year ++ rest.
Proof.
  unfold ServerFallback.summary_text. cbv zeta. eexists. reflexivity.
Qed.

(** C1, as amended. In the revision with the fallback
    ([src/unnamed/part_000]), when the call to the provider raises (it
    rejects, yields no result or no response, its text cannot be read, or the
    text is empty or blank), every date of the request can be parsed and the
    comparator of the ranking is consistent on the totals, an authorized
    request is answered with status 200 and the body [{insights, success:
    false, fallback: true, error}]: [insights] is the summary of
    [getFallbackAnalysis], which begins with its title and so is not empty,
    and [error] is the fixed notice.  In [src/server/index.js] the same
    failure is answered with status 500 and a body that holds an error
    message and neither [insights] nor [fallback]. *)
Theorem provider_failure_is_answered :
  forall {num : Type} `{Number num} (env : environment num) (req : request num)
         (token user : string) (txs : list (transaction num)),
    authorized env req token user ->
    transactions (body req) = ArrayOf txs -> txs <> [] ->
    (forall p : prompt num,
        ServerFallback.compose_prompt (body req) txs = Value p ->
        raises (generateContent env "gemini-1.5-flash" p) = true ->
        consistent descending (JSObject.entries (fst (category_totals txs))) ->
        dates_valid env txs ->
        exists text rest,
          ServerFallback.getFallbackAnalysis env (ArrayOf txs)
            (month (body req)) (year (body req)) = Value text
          /\ text = "## 📊 Expense Analysis for " ++ ToString (month (body req)) ++ " "
                    ++ ToString (year (body req)) ++ rest
          /\ ServerFallback.post_generate_insights env req =
             {| sent :=
                  Some (Json 200
                          {| insights := Some text;
                             success := Some false;
                             fallback := Some true;
                             error_text :=
                               Some "AI analysis temporarily unavailable - showing basic analysis";
                             details := None; meta := None; metadata_of := None |});
                calls := [GetUser token; GenerateContent "gemini-1.5-flash" p] |})
    /\ (raises_index (generateContent env "gemini-pro"
                        (ServerIndex.compose_prompt (body req) txs)) = true ->
        exists (msg : string) (stack : option string),
          msg <> EmptyString
          /\ ServerIndex.post_generate_insights env req =
             {| sent :=
                  Some (Json 500
                          {| insights := None; success := None; fallback := None;
                             error_text := Some msg; details := stack;
                             meta := None; metadata_of := None |});
                calls := [GetUser token;
                          GenerateContent "gemini-pro"
                            (ServerIndex.compose_prompt (body req) txs)] |}).
Proof.
  intros num N env req token user txs Hauth Htx Hne. split.
  - intros p Hp Hraise _ Hdates.
    pose proof (composed_is_numeric (body req) txs p Hp) as Hnum.
    destruct (fallback_returns env txs (month (body req)) (year (body req)) Hne Hnum Hdates)
      as [text Htext].
    destruct (fallback_shape env txs _ _ text Hne Hnum Htext) as [weeks Hshape].
    destruct (summary_text_begins txs (month (body req)) (year (body req))
                (sum_amounts txs)
                (JSArray.mapi (shown_rank (sum_amounts txs))
                   (numbers (top_categories (fst (category_totals txs)))))
                match numbers (top_categories (fst (category_totals txs))) with
                | (cat, _) :: _ => cat
                | [] => "undefined"
                end weeks) as [rest Hrest].
    exists text, rest. split; [exact Htext |]. split.
    + cbv zeta in Hshape. rewrite Hshape. exact Hrest.
    + unfold ServerFallback.post_generate_insights.
      rewrite (gate_passes env req token user _ Hauth).
      rewrite (fallback_failure env req _ txs p Htx Hne Hp Hraise), Htext. reflexivity.
  - intros Hraise.
    destruct (index_failure env req [GetUser token] txs Htx Hne Hraise) as [e He].
    exists (ServerIndex.message_or_default e),
           (if development env then Some (stack_of env e) else None).
    split.
    + unfold ServerIndex.message_or_default. destruct (message e); discriminate.
    + unfold ServerIndex.post_generate_insights.
      rewrite (gate_passes env req token user _ Hauth), He. reflexivity.
Qed.

Lemma provider_failure_is_answered_witness :
  exists text rest,
    ServerFallback.getFallbackAnalysis (sample_environment (AiRejects outage))
      (ArrayOf food_and_rent) (Str "May") (Num 2024%float) = Value text
    /\ text = "## 📊 Expense Analysis for " ++ "May" ++ " " ++ "2024" ++ rest
    /\ ServerFallback.post_generate_insights (sample_environment (AiRejects outage))
         (sample_request (Some "Bearer good") (ArrayOf food_and_rent)) =
       {| sent :=
            Some (Json 200
                    {| insights := Some text;
                       success := Some false;
                       fallback := Some true;
                       error_text :=
                         Some "AI analysis temporarily unavailable - showing basic analysis";
                       details := None; meta := None; metadata_of := None |});
          calls := [GetUser "good";
                    GenerateContent "gemini-1.5-flash"
                      (SummaryPrompt (Str "May") (Num 2024%float) "52.50" 2
                         [("Rent", "40.00"); ("Food", "12.50")]
                         (map ServerFallback.details_line food_and_rent))] |}.
Proof.
  refine (proj1 (provider_failure_is_answered (sample_environment (AiRejects outage))
                   (sample_request (Some "Bearer good") (ArrayOf food_and_rent))
                   "good" "student" food_and_rent _ _ _)
            (SummaryPrompt (Str "May") (Num 2024%float) "52.50" 2
               [("Rent", "40.00"); ("Food", "12.50")]
               (map ServerFallback.details_line food_and_rent)) _ _ _ _).
  - repeat split; [discriminate].
  - reflexivity.
  - discriminate.
  - vm_compute. reflexivity.
  - reflexivity.
  - apply consistentb_sound. vm_compute. reflexivity.
  - intros t [<- | [<- | []]]; exact I.
Defined.

(** C1 as stated fails.  On [src/server/index.js] the provider call of an
    authorized request rejects, and the answer is status 500 with the message
    of the error, not 200 with a fallback.  On the revision with the
    fallback the provider is down and one date cannot be parsed: the handler
    throws out of its [catch] block and sends nothing. *)
Lemma provider_failure_without_fallback :
  let env := sample_environment (AiRejects outage) in
  let req := sample_request (Some "Bearer good") (ArrayOf food_and_rent) in
  let undated := sample_request (Some "Bearer good") (ArrayOf [dated "Invalid"]) in
  (raises_index (generateContent env "gemini-pro"
                   (ServerIndex.compose_prompt (body req) food_and_rent)) = true
   /\ ServerIndex.post_generate_insights env req =
      {| sent :=
           Some (Json 500
                   {| insights := None; success := None; fallback := None;
                      error_text := Some "AI service unavailable"; details := None;
                      meta := None; metadata_of := None |});
         calls := [GetUser "good";
                   GenerateContent "gemini-pro"
                     (JsonPrompt (Str "May") (Num 2024%float) food_and_rent None)] |})
  /\ ServerFallback.post_generate_insights env undated =
     {| sent := None;
        calls := [GetUser "good";
                  GenerateContent "gemini-1.5-flash"
                    (SummaryPrompt (Str "May") (Num 2024%float) "5.00" 1
                       [("Food", "5.00")]
                       [{| line_date := Str "Invalid"; line_category := Str "Food";
                           line_amount := 5%float;
                           line_description := "No description" |}])] |}.
Proof. repeat split; vm_compute; reflexivity. Qed.

(** A category that goes by the name of an inherited function: the total
    is a string, [amt.toFixed] throws while the prompt is composed and again
    in [getFallbackAnalysis], so the provider is not called and the handler
    sends nothing. *)
Example inherited_name_sends_nothing :
  category_totals shadowing = ([("constructor", Glued "constructor" [5%float])], 5%float)
  /\ ServerFallback.post_generate_insights (sample_environment (AiText "fine"))
       (sample_request (Some "Bearer good") (ArrayOf shadowing)) =
     {| sent := None; calls := [GetUser "good"] |}.
Proof. split; vm_compute; reflexivity. Qed.

(** A route whose handler answers without a call submits no prompt:
    [Hhandler] states what the handler returns from any log. *)
Ltac quiet_route Hhandler :=
  rewrite gate_cases;
  destruct (bearer_token (authorization _)) as [[| ? ?] |]; try reflexivity;
  destruct (getUser _ _); try reflexivity;
  rewrite Hhandler; reflexivity.

(** C3. A request whose transaction list is an empty array is answered by
    both insights handlers with status 200 and a body whose only member is
    [insights], the fixed message "No transactions available for analysis",
    without any call; through the gate the only call of the whole request is
    the one to the auth provider, so the text provider is never invoked. *)
Theorem empty_list_short_circuits :
  forall {num : Type} `{Number num} (env : environment num) (req : request num),
    transactions (body req) = ArrayOf [] ->
    let no_data :=
      Json 200 {| insights := Some "No transactions available for analysis";
                  success := None; fallback := None; error_text := None;
                  details := None; meta := None; metadata_of := None |} in
    handle (ServerIndex.generate_insights env req) = {| sent := Some no_data; calls := [] |}
    /\ handle (ServerFallback.generate_insights env req)
       = {| sent := Some no_data; calls := [] |}
    /\ submitted (calls (ServerIndex.post_generate_insights env req)) = []
    /\ submitted (calls (ServerFallback.post_generate_insights env req)) = []
    /\ (forall token user, authorized env req token user ->
          ServerIndex.post_generate_insights env req
          = {| sent := Some no_data; calls := [GetUser token] |}
          /\ ServerFallback.post_generate_insights env req
             = {| sent := Some no_data; calls := [GetUser token] |}).
Proof.
  intros num N env req Htx no_data.
  assert (Hi : forall log, ServerIndex.generate_insights env req log = (Value no_data, log))
    by (intros log; now apply index_empty).
  assert (Hf : forall log, ServerFallback.generate_insights env req log = (Value no_data, log))
    by (intros log; now apply fallback_empty).
  split; [| split; [| split; [| split; [| intros token user Hauth; split]]]].
  - unfold handle. now rewrite Hi.
  - unfold handle. now rewrite Hf.
  - unfold ServerIndex.post_generate_insights. quiet_route Hi.
  - unfold ServerFallback.post_generate_insights. quiet_route Hf.
  - unfold ServerIndex.post_generate_insights.
    rewrite (gate_passes env req token user _ Hauth). now rewrite Hi.
  - unfold ServerFallback.post_generate_insights.
    rewrite (gate_passes env req token user _ Hauth). now rewrite Hf.
Qed.

Lemma empty_list_short_circuits_witness :
  ServerFallback.post_generate_insights (sample_environment (AiRejects outage))
    (sample_request (Some "Bearer good") (ArrayOf []))
  = {| sent :=
         Some (Json 200 {| insights := Some "No transactions available for analysis";
                           success := None; fallback := None; error_text := None;
                           details := None; meta := None; metadata_of := None |});
       calls := [GetUser "good"] |}.
Proof.
  refine (proj2 (proj2 (proj2 (proj2 (proj2
    (empty_list_short_circuits (sample_environment (AiRejects outage))
       (sample_request (Some "Bearer good") (ArrayOf [])) eq_refl))))
    "good" "student" _)).
  repeat split; [discriminate].
Defined.



(** ** The prompts a request submits *)
Section PromptFacts.
Context {num : Type} `{Number num}.
Variable env : environment num.

(** The fallback revision submits the prompt it could compose for a
    non-empty list, whatever the provider answers, and none when the prompt
    could not be composed. *)
Lemma fallback_log (req : request num) (txs : list (transaction num))
  (log : list (call num)) :
  transactions (body req) = ArrayOf txs -> txs <> [] ->
  snd (ServerFallback.generate_insights env req log) =
  match ServerFallback.compose_prompt (body req) txs with
  | Value p => (log ++ [GenerateContent ServerFallback.model_name p])%list
  | Thrown _ => log
  end.
Proof.
  intros Htx Hne.
  destruct (ServerFallback.compose_prompt (body req) txs) as [p | e] eqn:Hp.
  - destruct (raises (generateContent env ServerFallback.model_name p)) eqn:Hr.
    + now rewrite (fallback_failure env req log txs p Htx Hne Hp Hr).
    + destruct (generateContent env ServerFallback.model_name p)
        as [e | | | e | text] eqn:Hg; try discriminate.
      destruct (fallback_success env req log txs p text Htx Hne Hp Hg Hr)
        as (shown & _ & Heq).
      now rewrite Heq.
  - now rewrite (fallback_unprompted env req log txs e Htx Hne Hp).
Qed.

Lemma index_log (req : request num) (txs : list (transaction num))
  (log : list (call num)) :
  transactions (body req) = ArrayOf txs -> txs <> [] ->
  snd (ServerIndex.generate_insights env req log) =
  (log ++ [GenerateContent ServerIndex.model_name
             (ServerIndex.compose_prompt (body req) txs)])%list.
Proof.
  intros Htx Hne.
  destruct (raises_index (generateContent env ServerIndex.model_name
                            (ServerIndex.compose_prompt (body req) txs))) eqn:Hr.
  - destruct (index_failure env req log txs Htx Hne Hr) as [e He]. now rewrite He.
  - destruct (generateContent env ServerIndex.model_name
                (ServerIndex.compose_prompt (body req) txs)) as [e | | | e | text] eqn:Hg;
      try discriminate.
    now rewrite (index_success env req log txs text Htx Hne Hg Hr).
Qed.

(** The calls of a route: those of the gate, then those of the handler. *)
Lemma route_calls (req : request num) (next : string -> Run num response) :
  calls (handle (authenticateJWT env req next)) = gate_calls req
  \/ exists token user,
       authorized env req token user
       /\ calls (handle (authenticateJWT env req next)) = snd (next user [GetUser token]).
Proof.
  rewrite gate_cases. unfold gate_calls.
  destruct (bearer_token (authorization req)) as [[| c token] |] eqn:Ht;
    [now left | | now left].
  destruct (getUser env (String c token)) as [user | e | e] eqn:Hu; [| now left | now left].
  right. exists (String c token), user. split.
  - repeat split; [exact Ht | discriminate | exact Hu].
  - destruct (next user [GetUser (String c token)]) as [[r | e] log]; reflexivity.
Qed.

Lemma fallback_submitted (req : request num) (p : prompt num) :
  In p (submitted (calls (ServerFallback.post_generate_insights env req))) ->
  exists txs, transactions (body req) = ArrayOf txs /\ txs <> []
              /\ ServerFallback.compose_prompt (body req) txs = Value p.
Proof.
  unfold ServerFallback.post_generate_insights. intros Hin.
  destruct (route_calls req (fun _ => ServerFallback.generate_insights env req))
    as [Hc | (token & user & _ & Hc)]; rewrite Hc in Hin.
  - rewrite (proj1 (gate_calls_quiet req)) in Hin. contradiction.
  - destruct (transactions (body req)) as [v | [| t txs]] eqn:Htx.
    + rewrite (fallback_invalid env req _ v Htx) in Hin. contradiction.
    + rewrite (fallback_empty env req _ Htx) in Hin. contradiction.
    + rewrite (fallback_log req (t :: txs)) in Hin by (auto; discriminate).
      destruct (ServerFallback.compose_prompt (body req) (t :: txs)) as [q | e] eqn:Hq;
        [| contradiction].
      destruct Hin as [<- | []]. exists (t :: txs). repeat split; [discriminate | exact Hq].
Qed.

Lemma index_submitted (req : request num) (p : prompt num) :
  In p (submitted (calls (ServerIndex.post_generate_insights env req))) ->
  exists txs, transactions (body req) = ArrayOf txs /\ txs <> []
              /\ p = ServerIndex.compose_prompt (body req) txs.
Proof.
  unfold ServerIndex.post_generate_insights. intros Hin.
  destruct (route_calls req (fun _ => ServerIndex.generate_insights env req))
    as [Hc | (token & user & _ & Hc)]; rewrite Hc in Hin.
  - rewrite (proj1 (gate_calls_quiet req)) in Hin. contradiction.
  - destruct (transactions (body req)) as [v | [| t txs]] eqn:Htx.
    + rewrite (index_invalid env req _ v Htx) in Hin. contradiction.
    + rewrite (index_empty env req _ Htx) in Hin. contradiction.
    + rewrite (index_log req (t :: txs)) in Hin by (auto; discriminate).
      destruct Hin as [<- | []]. exists (t :: txs). repeat split. discriminate.
Qed.

Lemma fallback_prompt_lines (b : request_body num) (txs : list (transaction num))
  (p : prompt num) :
  ServerFallback.compose_prompt b txs = Value p -> raw_lines p = List.length txs.
Proof.
  intros Hp. destruct (compose_prompt_value b txs p Hp) as (shown & _ & ->).
  simpl. apply length_map.
Qed.
End PromptFacts.

(** C7, as amended. The prompt of [src/server/index.js] embeds the first
    twenty transactions of the list, never more, and notes the length of
    a longer list; the prompt of the fallback revision
    ([src/unnamed/part_000]) has one line for every transaction of the
    list, without a bound. *)
Theorem prompt_transaction_lines :
  forall {num : Type} `{Number num} (env : environment num) (req : request num)
         (p : prompt num),
    (In p (submitted (calls (ServerIndex.post_generate_insights env req))) ->
     exists txs,
       transactions (body req) = ArrayOf txs
       /\ p = JsonPrompt (month (body req)) (year (body req)) (firstn 20 txs)
                (if (20 <? List.length txs)%nat then Some (List.length txs) else None)
       /\ (raw_lines p <= 20)%nat)
    /\ (In p (submitted (calls (ServerFallback.post_generate_insights env req))) ->
        exists txs,
          transactions (body req) = ArrayOf txs /\ raw_lines p = List.length txs).
Proof.
  intros num N env req p. split; intros Hin.
  - destruct (index_submitted env req p Hin) as (txs & Htx & _ & ->).
    exists txs. repeat split; [exact Htx |].
    unfold ServerIndex.compose_prompt, raw_lines, JSArray.slice0.
    rewrite length_firstn. apply Nat.le_min_l.
  - destruct (fallback_submitted env req p Hin) as (txs & Htx & _ & Hp).
    exists txs. split; [exact Htx | now apply (fallback_prompt_lines (body req))].
Qed.

Lemma prompt_transaction_lines_witness :
  exists txs,
    transactions (body (sample_request (Some "Bearer good") (ArrayOf twenty_one)))
    = ArrayOf txs
    /\ ServerIndex.compose_prompt
         (body (sample_request (Some "Bearer good") (ArrayOf twenty_one))) twenty_one
       = JsonPrompt (Str "May") (Num 2024%float) (firstn 20 txs)
           (if (20 <? List.length txs)%nat then Some (List.length txs) else None)
    /\ (raw_lines (ServerIndex.compose_prompt
                     (body (sample_request (Some "Bearer good") (ArrayOf twenty_one)))
                     twenty_one) <= 20)%nat.
Proof.
  refine (proj1 (prompt_transaction_lines (sample_environment (AiText "fine"))
                   (sample_request (Some "Bearer good") (ArrayOf twenty_one))
                   (ServerIndex.compose_prompt
                      (body (sample_request (Some "Bearer good") (ArrayOf twenty_one)))
                      twenty_one)) _).
  left. reflexivity.
Defined.

(** C7 as stated fails on the fallback revision: no bound holds for the
    number of transaction lines of its prompts. *)
Lemma fallback_prompt_has_no_bound :
  ~ exists bound : nat,
      forall (txs : list (transaction float)) (p : prompt float),
        In p (submitted (calls (ServerFallback.post_generate_insights
                                  (sample_environment (AiText "fine"))
                                  (sample_request (Some "Bearer good") (ArrayOf txs))))) ->
        (raw_lines p <= bound)%nat.
Proof.
  intros [bound Hbound].
  set (txs := repeat (purchase 1%float "Food") (S bound)).
  set (req := sample_request (Some "Bearer good") (ArrayOf txs)).
  set (env := sample_environment (AiText "fine")).
  assert (Hauth : authorized env req "good" "student")
    by (repeat split; discriminate).
  assert (Hne : txs <> []) by discriminate.
  assert (Hplain : plain_categories txs).
  { intros t Ht. apply repeat_spec in Ht. subst t. reflexivity. }
  pose proof (compose_prompt_plain (body req) txs Hplain) as Hp.
  set (p := SummaryPrompt _ _ _ _ _ _) in Hp.
  specialize (Hbound txs p).
  rewrite (fallback_prompt_lines (body req) txs p Hp) in Hbound.
  unfold txs at 2 in Hbound. rewrite repeat_length in Hbound.
  enough (S bound <= bound)%nat by lia. apply Hbound.
  unfold ServerFallback.post_generate_insights. fold env req.
  rewrite (gate_passes env req "good" "student" _ Hauth).
  pose proof (fallback_log env req txs [GetUser "good"] eq_refl Hne) as Hlog.
  rewrite Hp in Hlog.
  destruct (ServerFallback.generate_insights env req [GetUser "good"]) as [[r | e] log];
    simpl in Hlog; subst log; simpl; now left.
Qed.

(** The fallback revision at twenty-one transactions: twenty-one lines. *)
Example twenty_one_lines :
  map raw_lines
    (submitted (calls (ServerFallback.post_generate_insights
                         (sample_environment (AiText "fine"))
                         (sample_request (Some "Bearer good") (ArrayOf twenty_one)))))
  = [21%nat]
  /\ map raw_lines
       (submitted (calls (ServerIndex.post_generate_insights
                            (sample_environment (AiText "fine"))
                            (sample_request (Some "Bearer good") (ArrayOf twenty_one)))))
     = [20%nat].
Proof. split; vm_compute; reflexivity. Qed.

(** ** Report rendering *)
Section ReportFacts.
Context {num : Type} `{Number num}.
Variable env : environment num.
Variable cell : transaction num -> value.
#[local] Open Scope js_scope.

Lemma fold_draw_row (txs : list (transaction num)) (total : num) (drawn : list value) :
  fold_left (draw_row env cell) txs (total, drawn) =
  (fold_left (fun sum t => sum + amount t) txs total,
   (drawn ++ flat_map (row_texts env cell) txs)%list).
Proof.
  revert total drawn. induction txs as [| t txs IH]; intros total drawn; simpl.
  - now rewrite app_nil_r.
  - rewrite IH. now rewrite <- app_assoc.
Qed.

(** The document the server streams for a list of transactions. *)
Lemma report_cases (req : request num) (txs : list (transaction num)) :
  transactions (body req) = ArrayOf txs ->
  handle (generate_report env cell req) =
  {| sent := Some (Pdf {| content_disposition :=
                            "attachment; filename=expense-report-"
                            ++ ToString (month (body req)) ++ "-"
                            ++ ToString (year (body req)) ++ ".pdf";
                          texts := (report_heading (body req)
                                    ++ flat_map (row_texts env cell) txs
                                    ++ [total_line (sum_amounts txs)])%list |});
     calls := [NewPDFDocument] |}.
Proof.
  intros Htx. unfold handle, generate_report, try_catch, bind, perform, ret.
  simpl. rewrite Htx. rewrite fold_draw_row. reflexivity.
Qed.

Lemma last_total (l : list value) (v : value) :
  List.last (map Some (l ++ [v])) None = Some v.
Proof. rewrite map_app. simpl. apply last_last. Qed.

Lemma sum_amounts_ext (txs txs' : list (transaction num)) :
  map amount txs' = map amount txs -> sum_amounts txs' = sum_amounts txs.
Proof.
  unfold sum_amounts. generalize (@num_zero num _).
  revert txs'. induction txs as [| t txs IH]; intros [| t' txs'] z Heq;
    simpl in *; try discriminate; [reflexivity |].
  inversion Heq as [[Ha Hrest]]. rewrite Ha. now apply IH.
Qed.

Lemma store_In {V : Type} (k : string) (v : V) (o : JSObject.t V) (e : string * V) :
  In e (JSObject.store k v o) -> e = (k, v) \/ In e o.
Proof.
  induction o as [| [k' v'] o IH]; simpl.
  - intros [<- | []]. now left.
  - destruct (String.eqb k' k) eqn:E.
    + apply String.eqb_eq in E. subst k'. intros [<- | Hin]; [now left | right; now right].
    + intros [<- | Hin]; [right; now left |].
      destruct (IH Hin) as [-> | Ho]; [now left | right; now right].
Qed.

Lemma set_In {V : Type} (k : string) (v : V) (o : JSObject.t V) (e : string * V) :
  In e (JSObject.set k v o) -> e = (k, v) \/ In e o.
Proof.
  unfold JSObject.set. destruct (String.eqb k "__proto__"); [now right | apply store_In].
Qed.

Lemma own_found {V : Type} (k : string) (v : V) (o : JSObject.t V) :
  JSObject.own k o = Some v -> In (k, v) o.
Proof.
  induction o as [| [k' v'] o IH]; simpl; [discriminate |].
  destruct (String.eqb k' k) eqn:E.
  - apply String.eqb_eq in E. subst k'. intros Heq. left. congruence.
  - intros Ho. right. now apply IH.
Qed.

(** Under a plain name an object of numbers gets a number. *)
Lemma plus_amount_number (k : string) (o : JSObject.t (stored num)) (a : num) :
  inherited k = false ->
  (forall e, In e o -> exists x, snd e = Amount x) ->
  exists y, plus_amount (JSObject.get k o) a = Amount y.
Proof.
  intros Hk Hnum. destruct (JSObject.own k o) as [v |] eqn:Ho.
  - destruct (Hnum _ (own_found k v o Ho)) as [x Hx]. simpl in Hx. subst v.
    rewrite (plus_amount_plain k o (Some x) a Hk Ho). now eexists.
  - rewrite (plus_amount_plain k o None a Hk Ho). now eexists.
Qed.

Lemma group_returns (txs : list (transaction num)) (acc : JSObject.t (stored num)) :
  (forall t, In t txs ->
     exists joined, categories t = Some joined
                    /\ inherited (ToString (of_member joined)) = false) ->
  (forall e, In e acc -> exists x, snd e = Amount x) ->
  exists categoryData,
    fold_left (ReportPDF.group env) txs (Value acc) = Value categoryData
    /\ (forall e, In e categoryData -> exists x, snd e = Amount x).
Proof.
  revert acc. induction txs as [| t txs IH]; intros acc Hc Hnum; simpl.
  - now exists acc.
  - destruct (Hc t (or_introl eq_refl)) as (joined & Hj & Hplain). rewrite Hj.
    apply IH; [intros x Hx; apply Hc; now right |].
    intros e He. apply set_In in He. destruct He as [-> | He]; [| now apply Hnum].
    destruct (plus_amount_number (ToString (of_member joined)) acc (amount t) Hplain Hnum)
      as [y Hy].
    rewrite Hy. now exists y.
Qed.

Lemma breakdown_returns (total : num) (l : list (string * stored num)) :
  (forall e, In e l -> exists x, snd e = Amount x) ->
  exists lines, collect (map (ReportPDF.category_text total) l) = Value lines.
Proof.
  induction l as [| [c v] l IH]; intros Hnum; simpl; [now eexists |].
  destruct (Hnum (c, v) (or_introl eq_refl)) as [x Hx]. simpl in Hx. subst v. simpl.
  destruct IH as [lines ->]; [intros e He; apply Hnum; now right |].
  now eexists.
Qed.
End ReportFacts.

(** C4. The report handler of the server prints, as the last text of the
    document, "Total Expenses: $" followed by the sum of the amounts of the
    listed transactions to two decimals, added from the left starting at
    zero; the client-side document [MyDocument] prints the same total
    whenever it renders.  The printed total is a function of the listed
    amounts alone: two requests whose lists carry the same amounts print the
    same total, whatever the other members of their bodies are.
    [MyDocument] renders when every transaction has its joined category and
    no category goes by a name that an object inherits. *)
Theorem report_total_is_the_sum_of_the_amounts :
  forall {num : Type} `{Number num} (env : environment num)
         (cell : transaction num -> value) (req : request num)
         (txs : list (transaction num)),
    transactions (body req) = ArrayOf txs ->
    printed_total (handle (generate_report env cell req))
    = Some (Str ("Total Expenses: $" ++ num_toFixed (sum_amounts txs) 2))
    /\ (forall (req' : request num) (txs' : list (transaction num)),
          transactions (body req') = ArrayOf txs' ->
          map amount txs' = map amount txs ->
          printed_total (handle (generate_report env cell req'))
          = printed_total (handle (generate_report env cell req)))
    /\ (forall (month year summary : value) (doc : ReportPDF.document),
          ReportPDF.MyDocument env txs month year summary = Value doc ->
          ReportPDF.total_text doc
          = "Total Expenses: $" ++ num_toFixed (sum_amounts txs) 2)
    /\ (forall (month year summary : value),
          (forall t, In t txs ->
             exists joined, categories t = Some joined
                            /\ inherited (ToString (of_member joined)) = false) ->
          exists doc, ReportPDF.MyDocument env txs month year summary = Value doc).
Proof.
  intros num N env cell req txs Htx.
  assert (Hprinted : forall r l, transactions (body r) = ArrayOf l ->
            printed_total (handle (generate_report env cell r))
            = Some (total_line (sum_amounts l))).
  { intros r l Hl. rewrite (report_cases env cell r l Hl).
    unfold printed_total. cbn [sent texts].
    rewrite app_assoc. apply last_total. }
  split; [now apply Hprinted |].
  split; [| split].
  - intros req' txs' Htx' Hsame.
    rewrite (Hprinted req' txs' Htx'), (Hprinted req txs Htx).
    now rewrite (sum_amounts_ext txs txs' Hsame).
  - intros month year summary doc. unfold ReportPDF.MyDocument.
    destruct (fold_left (ReportPDF.group env) txs (Value JSObject.empty));
      [| discriminate].
    destruct (collect _); [| discriminate].
    intros Heq. inversion Heq. reflexivity.
  - intros month year summary Hc. unfold ReportPDF.MyDocument.
    destruct (group_returns env txs JSObject.empty Hc) as (categoryData & -> & Hnum);
      [intros e [] |].
    destruct (breakdown_returns (fold_left (fun sum t => num_add sum (amount t)) txs num_zero)
                (JSObject.entries categoryData)) as [lines ->].
    + intros e He. apply Hnum. now apply (Permutation_in _ (entries_perm _)) in He.
    + now eexists.
Qed.

Lemma report_total_is_the_sum_of_the_amounts_witness :
  printed_total (handle (generate_report (sample_environment AiNoResult)
                           ServerIndex.category_cell
                           (sample_request (Some "Bearer good") (ArrayOf joined_rows))))
  = Some (Str ("Total Expenses: $" ++ num_toFixed (sum_amounts joined_rows) 2))
  /\ exists doc,
       ReportPDF.MyDocument (sample_environment AiNoResult) joined_rows
         (Num 5%float) (Num 2024%float) Undefined = Value doc.
Proof.
  pose proof (report_total_is_the_sum_of_the_amounts (sample_environment AiNoResult)
                ServerIndex.category_cell
                (sample_request (Some "Bearer good") (ArrayOf joined_rows))
                joined_rows eq_refl) as Hw.
  split; [exact (proj1 Hw) |].
  apply (proj2 (proj2 (proj2 Hw))).
  intros t [<- | [<- | []]]; eexists; split; reflexivity.
Defined.

(** The report of the example of the specification: the request carries a
    member [total] of one million, and the report prints 52.50. *)
Example report_of_the_example :
  printed_total (ServerIndex.post_generate_report (sample_environment AiNoResult)
                   (sample_request (Some "Bearer good") (ArrayOf food_and_rent)))
  = Some (Str "Total Expenses: $52.50").
Proof. vm_compute. reflexivity. Qed.

(** The client-side document of the same rows, and of a row whose joined
    category goes by the name of an inherited function: the total of that
    category is a string, [amount.toFixed] throws and nothing is rendered. *)
Example documents_of_the_example :
  option_map ReportPDF.total_text
    match ReportPDF.MyDocument (sample_environment AiNoResult) joined_rows
            (Num 5%float) (Num 2024%float) Undefined with
    | Value doc => Some doc
    | Thrown _ => None
    end = Some "Total Expenses: $52.50"
  /\ ReportPDF.MyDocument (sample_environment AiNoResult) [joined_row 5%float "constructor"]
       (Num 5%float) (Num 2024%float) Undefined
     = Thrown (not_a_function "amount.toFixed").
Proof. split; vm_compute; reflexivity. Qed.

(** ** The ranking of the categories *)
Section RankingFacts.
Context {num : Type} `{Number num}.
Implicit Types (txs : list (transaction num)).

Lemma StronglySorted_firstn {A : Type} (R : A -> A -> Prop) (n : nat) (l : list A) :
  StronglySorted R l -> StronglySorted R (firstn n l).
Proof.
  intros Hs. revert n. induction Hs as [| x l Hs IH Hall]; intros [| n]; simpl;
    try constructor.
  - apply IH.
  - rewrite Forall_forall in *. intros y Hy. apply Hall.
    rewrite <- (firstn_skipn n l). apply in_or_app. now left.
Qed.

Lemma StronglySorted_map {A B : Type} (R : A -> A -> Prop) (Q : B -> B -> Prop)
  (g : A -> B) (l : list A) :
  (forall a b, R a b -> Q (g a) (g b)) ->
  StronglySorted R l -> StronglySorted Q (map g l).
Proof.
  intros Hg. induction 1 as [| x l Hs IH Hall]; simpl; constructor; [exact IH |].
  rewrite Forall_forall in *. intros y Hy.
  apply in_map_iff in Hy. destruct Hy as (b & <- & Hb). apply Hg. now apply Hall.
Qed.

(** Under a consistent comparator the ranking is in descending order. *)
Lemma ranking_sorted (totals : JSObject.t (stored num)) :
  consistent descending (JSObject.entries totals) ->
  StronglySorted (not_after descending) (top_categories totals).
Proof.
  intros Hc. unfold top_categories, JSArray.slice0.
  apply StronglySorted_firstn. now apply sort_sorted.
Qed.

(** Two ranked categories with the same total stand as in
    [Object.entries]: array indices first and ascending, the others in
    the order of their first occurrence. *)
Lemma ranking_ties txs (c1 c2 : string) (a : stored num) :
  consistent descending (JSObject.entries (fst (category_totals txs))) ->
  before (c1, a) (c2, a) (top_categories (fst (category_totals txs))) ->
  match JSObject.array_index c1, JSObject.array_index c2 with
  | Some i, Some j => (i < j)%N
  | Some _, None => True
  | None, Some _ => False
  | None, None =>
      exists i j, first_index c1 (map category_key txs) = Some i
                  /\ first_index c2 (map category_key txs) = Some j
                  /\ (i < j)%nat
  end.
Proof.
  intros Hc Hb. set (totals := fst (category_totals txs)) in *.
  pose proof (totals_NoDup txs) as Hnd. fold totals in Hnd.
  unfold top_categories, JSArray.slice0 in Hb. apply before_firstn in Hb.
  destruct (before_In _ _ _ Hb) as [H1 H2].
  apply (proj1 (sort_In _ _ _)) in H1. apply (proj1 (sort_In _ _ _)) in H2.
  assert (Htie : not_after descending (c2, a) (c1, a)).
  { unfold not_after. destruct (Hc (c1, a) (c1, a) (c1, a) H1 H1 H1) as [Hrefl _].
    unfold order, descending in *. simpl in *.
    destruct (num_positive (num_sub (ToNumber a) (ToNumber a))); [discriminate |].
    destruct (num_negative (num_sub (ToNumber a) (ToNumber a))); discriminate. }
  apply sort_tie_order in Hb;
    [| apply NoDup_keys_NoDup; now apply entries_NoDup | exact Htie].
  apply (entries_before totals (c1, a) (c2, a) Hnd) in Hb. simpl in Hb.
  destruct (JSObject.array_index c1), (JSObject.array_index c2); try exact Hb.
  apply (before_map fst) in Hb. simpl in Hb. unfold totals in Hb.
  rewrite totals_keys in Hb. apply before_filter in Hb. now apply first_seen_before.
Qed.

Lemma numbers_keys (l : list (string * stored num)) : map fst (numbers l) = map fst l.
Proof. unfold numbers. rewrite map_map. reflexivity. Qed.

Lemma numbers_firstn (n : nat) (l : list (string * stored num)) :
  numbers (firstn n l) = firstn n (numbers l).
Proof. unfold numbers. symmetry. apply firstn_map. Qed.

(** The ranking of a list with plain names is one in order of descending
    per-category sum. *)
Lemma ranking_is_descending txs :
  plain_categories txs ->
  consistent descending (JSObject.entries (fst (category_totals txs))) ->
  descending_ranking txs (numbers (top_categories (fst (category_totals txs)))).
Proof.
  intros Hp Hc. set (totals := fst (category_totals txs)) in *.
  exists (numbers (JSArray.sort descending (JSObject.entries totals))).
  assert (Hin : forall e, In e (JSArray.sort descending (JSObject.entries totals))
                          <-> In e totals).
  { intros e. rewrite sort_In. split; apply Permutation_in;
      [| symmetry]; apply entries_perm. }
  split; [apply numbers_firstn |]. split; [| split].
  - rewrite numbers_keys.
    eapply Permutation_NoDup;
      [apply Permutation_map; symmetry; apply sort_perm |].
    apply entries_NoDup. apply totals_NoDup.
  - intros c v. unfold numbers. rewrite in_map_iff. split.
    + intros ([c' v'] & Heq & He). simpl in Heq. inversion Heq; subst c v.
      apply Hin in He.
      destruct (totals_numeric txs c' v' Hp He) as (Hk & x & -> & Hx).
      split; [exact Hk | exact Hx].
    + intros [Hk Hv]. destruct (totals_has txs c Hp Hk) as (x & Hx & Hacc).
      exists (c, Amount x). split; [| now apply Hin].
      simpl. f_equal. congruence.
  - apply (StronglySorted_map (not_after descending)); [| now apply sort_sorted].
    intros a b Hab. unfold not_after in Hab. rewrite order_Gt in Hab.
    unfold descending in Hab. simpl.
    destruct (num_positive (num_sub (ToNumber (snd b)) (ToNumber (snd a))));
      [congruence | reflexivity].
Qed.
End RankingFacts.

(** The ranking does not depend on the sort algorithm of the engine:
    under a consistent comparator, the first three of any stable sort of
    the entries are the ranking computed here. *)
Lemma ranking_determined :
  forall {num : Type} `{Number num} (txs : list (transaction num))
         (sorted : list (string * stored num)),
    consistent descending (JSObject.entries (fst (category_totals txs))) ->
    stable_sort_of descending (JSObject.entries (fst (category_totals txs))) sorted ->
    firstn 3 sorted = top_categories (fst (category_totals txs)).
Proof.
  intros num N txs sorted Hc Hs. unfold top_categories, JSArray.slice0. f_equal.
  apply stable_sort_unique; [| exact Hc | exact Hs].
  apply NoDup_keys_NoDup. apply entries_NoDup. apply totals_NoDup.
Qed.

(** A total that is NaN breaks the consistency of the comparator: with
    totals 1, NaN and 2 the comparator ranks NaN equal to both.  An
    infinite total does not. *)
Example nan_total_is_inconsistent :
  consistentb descending [("A", Amount 1%float); ("B", Amount nan); ("C", Amount 2%float)]
  = false
  /\ consistentb descending
       [("A", Amount 1%float); ("B", Amount infinity); ("C", Amount 2%float)] = true.
Proof. split; vm_compute; reflexivity. Qed.






(** C6, as amended. In the ranking computed by insight generation (the
    statistics of the prompt and of the success metadata, and the fallback
    summary, use the same computation), two categories with equal totals
    stand in the order of [Object.entries]: categories whose names are array
    indices (canonical decimal integers below 2^32 - 1) come first, in
    ascending numeric order, and the other categories follow in the order of
    their first occurrence in the transaction list.  The comparator is
    supposed consistent on the totals, the condition under which the
    language defines the sort order. *)
Theorem ties_follow_entries_order :
  forall {num : Type} `{Number num} (txs : list (transaction num))
         (c1 c2 : string) (a1 a2 : stored num),
    consistent descending (JSObject.entries (fst (category_totals txs))) ->
    before (c1, a1) (c2, a2) (top_categories (fst (category_totals txs))) ->
    a1 = a2 ->
    match JSObject.array_index c1, JSObject.array_index c2 with
    | Some i, Some j => (i < j)%N
    | Some _, None => True
    | None, Some _ => False
    | None, None =>
        exists i j, first_index c1 (map category_key txs) = Some i
                    /\ first_index c2 (map category_key txs) = Some j
                    /\ (i < j)%nat
    end.
Proof.
  intros num N txs c1 c2 a1 a2 Hc Hb <-. exact (ranking_ties txs c1 c2 a1 Hc Hb).
Qed.

Lemma ties_follow_entries_order_witness :
  exists i j, first_index "Rent" (map category_key
                                    [purchase 5%float "Rent"; purchase 5%float "Food"])
              = Some i
              /\ first_index "Food" (map category_key
                                       [purchase 5%float "Rent"; purchase 5%float "Food"])
                 = Some j
              /\ (i < j)%nat.
Proof.
  refine (ties_follow_entries_order
            [purchase 5%float "Rent"; purchase 5%float "Food"]
            "Rent" "Food" (Amount 5%float) (Amount 5%float) _ _ eq_refl).
  - apply consistentb_sound. vm_compute. reflexivity.
  - vm_compute. constructor. left. reflexivity.
Defined.

(** C6 as stated fails: Food and 7 have equal totals and Food occurs
    first, but the ranking lists 7 first, because [Object.entries] lists
    array-index keys before the others. *)
Lemma index_named_category_precedes :
  top_categories (fst (category_totals food_and_seven))
  = [("7", Amount 10%float); ("Food", Amount 10%float)]
  /\ first_index "Food" (map category_key food_and_seven) = Some 0%nat
  /\ first_index "7" (map category_key food_and_seven) = Some 1%nat.
Proof. repeat split; vm_compute; reflexivity. Qed.

(** C9, as amended. When the provider returns text that is not blank for
    the prompt of an authorized request with a non-empty list, the revision
    with the fallback ([src/unnamed/part_000]) answers with that text
    verbatim, [success: true] and the metadata: the number of transactions,
    the sum of the amounts to two decimals and, each with its total to two
    decimals, the top categories: a ranking in order of descending
    per-category sum, the first three of any stable sort of the totals by the
    comparator.  This supposes that no category goes by a name that an object
    inherits and that the comparator is consistent on the totals.  The
    revision in [src/server/index.js] answers with the text verbatim and a
    [meta] member that holds the number of transactions and the period
    only. *)
Theorem success_returns_the_text_with_metadata :
  forall {num : Type} `{Number num} (env : environment num) (req : request num)
         (token user : string) (txs : list (transaction num)) (text : string),
    authorized env req token user ->
    transactions (body req) = ArrayOf txs -> txs <> [] ->
    (forall p : prompt num,
        ServerFallback.compose_prompt (body req) txs = Value p ->
        generateContent env "gemini-1.5-flash" p = AiText text ->
        raises (AiText text) = false ->
        plain_categories txs ->
        consistent descending (JSObject.entries (fst (category_totals txs))) ->
        exists ranking : list (string * num),
          descending_ranking txs ranking
          /\ (forall sorted,
                stable_sort_of descending (JSObject.entries (fst (category_totals txs)))
                  sorted ->
                ranking = numbers (firstn 3 sorted))
          /\ ServerFallback.post_generate_insights env req =
             {| sent :=
                  Some (Json 200
                          {| insights := Some text; success := Some true; fallback := None;
                             error_text := None; details := None; meta := None;
                             metadata_of :=
                               Some {| totalTransactions := List.length txs;
                                       totalAmount := num_toFixed (sum_amounts txs) 2;
                                       topCategories :=
                                         map (fun e : string * num =>
                                                (fst e, num_toFixed (snd e) 2))
                                             ranking |} |});
                calls := [GetUser token; GenerateContent "gemini-1.5-flash" p] |})
    /\ (generateContent env "gemini-pro"
          (ServerIndex.compose_prompt (body req) txs) = AiText text ->
        text <> EmptyString ->
        sent (ServerIndex.post_generate_insights env req) =
        Some (Json 200
                {| insights := Some text; success := None; fallback := None;
                   error_text := None; details := None;
                   meta := Some (List.length txs,
                                 ToString (month (body req)) ++ " "
                                 ++ ToString (year (body req)));
                   metadata_of := None |})).
Proof.
  intros num N env req token user txs text Hauth Htx Hne. split.
  - intros p Hp Hreply Hok Hplain Hc.
    exists (numbers (top_categories (fst (category_totals txs)))).
    split; [now apply ranking_is_descending |]. split.
    + intros sorted Hs. now rewrite (ranking_determined txs sorted Hc Hs).
    + destruct (fallback_success env req [GetUser token] txs p text Htx Hne Hp Hreply Hok)
        as (shown & Hshown & Heq).
      rewrite shown_numeric in Hshown
        by (intros e He; now apply (ranking_numeric txs e Hplain)).
      inversion Hshown as [Hs]. clear Hshown. subst shown.
      unfold ServerFallback.post_generate_insights.
      rewrite (gate_passes env req token user _ Hauth), Heq.
      unfold ServerFallback.success_reply. rewrite total_is_sum. reflexivity.
  - intros Hreply Htext. unfold ServerIndex.post_generate_insights.
    rewrite (gate_passes env req token user _ Hauth).
    rewrite (index_success env req _ txs text Htx Hne Hreply); [reflexivity |].
    destruct text; [congruence | reflexivity].
Qed.

Lemma success_returns_the_text_with_metadata_witness :
  exists ranking : list (string * float),
    descending_ranking food_and_rent ranking
    /\ (forall sorted,
          stable_sort_of descending
            (JSObject.entries (fst (category_totals food_and_rent))) sorted ->
          ranking = numbers (firstn 3 sorted))
    /\ ServerFallback.post_generate_insights (sample_environment (AiText "Spend less."))
         (sample_request (Some "Bearer good") (ArrayOf food_and_rent)) =
       {| sent :=
            Some (Json 200
                    {| insights := Some "Spend less."; success := Some true;
                       fallback := None; error_text := None; details := None;
                       meta := None;
                       metadata_of :=
                         Some {| totalTransactions := 2;
                                 totalAmount := num_toFixed (sum_amounts food_and_rent) 2;
                                 topCategories :=
                                   map (fun e : string * float =>
                                          (fst e, num_toFixed (snd e) 2))
                                       ranking |} |});
          calls := [GetUser "good";
                    GenerateContent "gemini-1.5-flash"
                      (SummaryPrompt (Str "May") (Num 2024%float) "52.50" 2
                         [("Rent", "40.00"); ("Food", "12.50")]
                         (map ServerFallback.details_line food_and_rent))] |}.
Proof.
  refine (proj1 (success_returns_the_text_with_metadata
                   (sample_environment (AiText "Spend less."))
                   (sample_request (Some "Bearer good") (ArrayOf food_and_rent))
                   "good" "student" food_and_rent "Spend less." _ _ _)
            (SummaryPrompt (Str "May") (Num 2024%float) "52.50" 2
               [("Rent", "40.00"); ("Food", "12.50")]
               (map ServerFallback.details_line food_and_rent)) _ _ _ _ _).
  - repeat split; [discriminate].
  - reflexivity.
  - discriminate.
  - vm_compute. reflexivity.
  - reflexivity.
  - reflexivity.
  - intros t [<- | [<- | []]]; reflexivity.
  - apply consistentb_sound. vm_compute. reflexivity.
Defined.

(** C9 as stated fails.  On [src/server/index.js] the success response
    has the text, the number of transactions and the period, and neither the
    total spend nor the top categories.  On the revision with the fallback a
    provider that returns a blank text is answered with the fallback summary
    and [success: false], not with its text; and a category that goes by the
    name [__proto__] is counted in the total and is missing from the top
    categories, although its sum is the largest. *)
Lemma success_without_the_text_or_the_totals :
  let req := sample_request (Some "Bearer good") (ArrayOf food_and_rent) in
  sent (ServerIndex.post_generate_insights (sample_environment (AiText "Spend less.")) req)
  = Some (Json 200
            {| insights := Some "Spend less."; success := None; fallback := None;
               error_text := None; details := None;
               meta := Some (2%nat, "May 2024");
               metadata_of := None |})
  /\ (exists summary,
        summary <> " "
        /\ sent (ServerFallback.post_generate_insights (sample_environment (AiText " ")) req)
           = Some (Json 200
                     {| insights := Some summary; success := Some false;
                        fallback := Some true;
                        error_text :=
                          Some "AI analysis temporarily unavailable - showing basic analysis";
                        details := None; meta := None; metadata_of := None |}))
  /\ sent (ServerFallback.post_generate_insights (sample_environment (AiText "Spend less."))
             (sample_request (Some "Bearer good") (ArrayOf hidden)))
     = Some (Json 200
               {| insights := Some "Spend less."; success := Some true; fallback := None;
                  error_text := None; details := None; meta := None;
                  metadata_of :=
                    Some {| totalTransactions := 2; totalAmount := "101.00";
                            topCategories := [("Food", "1.00")] |} |}).
Proof.
  cbv zeta. split; [vm_compute; reflexivity |]. split; [| vm_compute; reflexivity].
  eexists. split; [| vm_compute; reflexivity]. discriminate.
Qed.

(** The metadata of the example of the specification. *)
Example success_metadata_of_the_example :
  sent (ServerFallback.post_generate_insights (sample_environment (AiText "Spend less."))
          (sample_request (Some "Bearer good") (ArrayOf food_and_rent))) =
  Some (Json 200
          {| insights := Some "Spend less."; success := Some true; fallback := None;
             error_text := None; details := None; meta := None;
             metadata_of :=
               Some {| totalTransactions := 2; totalAmount := "52.50";
                       topCategories := [("Rent", "40.00"); ("Food", "12.50")] |} |}).
Proof. vm_compute. reflexivity. Qed.

(** ** Sums without rounding *)

(** A number that is falsy and stands for a rational stands for zero. *)
Lemma value_falsy (x : float) (q : Qc) :
  Binary64.truthy x = false -> Binary64.value x = Some q -> q = Q2Qc 0.
Proof.
  unfold Binary64.truthy, Binary64.value, PrimFloat.is_nan.
  rewrite !FloatAxioms.eqb_spec.
  change (Prim2SF 0) with (S754_zero false).
  destruct (Prim2SF x) as [s | s | | s m e]; try discriminate.
  - intros _ Hq. now inversion Hq.
  - intros Ht _. exfalso. revert Ht. unfold SFeqb, SFcompare.
    rewrite Z.compare_refl.
    change (Pos.compare_cont Eq m m) with (Pos.compare m m).
    rewrite Pos.compare_refl. destruct s; discriminate.
Qed.

Lemma exact_sum_spec (x y : float) :
  Binary64.exact_sum x y = true ->
  exists a b, Binary64.value x = Some a /\ Binary64.value y = Some b
              /\ Binary64.value (x + y) = Some (Qcplus a b).
Proof.
  unfold Binary64.exact_sum.
  destruct (Binary64.value x) as [a |]; [| discriminate].
  destruct (Binary64.value y) as [b |]; [| discriminate].
  destruct (Binary64.value (x + y)) as [c |]; [| discriminate].
  intros Heq. apply Qc_eq_bool_correct in Heq. subst c. now exists a, b.
Qed.

(** What [(v || 0)] stands for is what [v] stands for. *)
Lemma value_or_zero (v : float) (q : Qc) :
  Binary64.value v = Some q -> Binary64.value (or_zero (Some v)) = Some q.
Proof.
  intros Hv. unfold or_zero. cbn [num_truthy num_zero binary64].
  destruct (Binary64.truthy v) eqn:Et; [exact Hv |].
  rewrite (value_falsy v q Et Hv). reflexivity.
Qed.

Lemma exact_total_perm (l l' : list (string * stored float)) :
  Permutation l l' -> exact_total l = exact_total l'.
Proof.
  induction 1 as [| [k v] l l' _ IH | [k v] [k' v'] l | l l' l'' _ IH1 _ IH2].
  - reflexivity.
  - simpl. now rewrite IH.
  - simpl. destruct v as [x | n a], v' as [x' | n' a']; simpl;
      repeat match goal with
             | |- context [Binary64.value ?z] => destruct (Binary64.value z)
             end;
      try destruct (exact_total l); try reflexivity.
    f_equal. ring.
  - now rewrite IH1.
Qed.

Lemma exact_total_own (k : string) (x : float) (o : JSObject.t (stored float)) (q : Qc) :
  JSObject.own k o = Some (Amount x) -> exact_total o = Some q ->
  exists vx, Binary64.value x = Some vx.
Proof.
  revert q. induction o as [| [k' v'] o IH]; intros q; simpl; [discriminate |].
  destruct (String.eqb k' k).
  - intros Heq. inversion Heq; subst v'.
    destruct (Binary64.value x) as [vx |]; [now exists vx | discriminate].
  - destruct v' as [x' | n a]; [| discriminate].
    destruct (Binary64.value x'); [| discriminate].
    destruct (exact_total o) as [q' |]; [| discriminate].
    intros Ho _. now apply (IH q').
Qed.

(** Writing a number over one adds the difference to the sum. *)
Lemma exact_total_store_old (k : string) (x y : float) (o : JSObject.t (stored float))
  (q vx vy : Qc) :
  JSObject.own k o = Some (Amount x) -> exact_total o = Some q ->
  Binary64.value x = Some vx -> Binary64.value y = Some vy ->
  exact_total (JSObject.store k (Amount y) o) = Some (Qcplus (Qcminus q vx) vy).
Proof.
  intros Ho Hq Hx Hy. revert q Ho Hq.
  induction o as [| [k' v'] o IH]; intros q; simpl; [discriminate |].
  destruct (String.eqb k' k).
  - intros Heq. inversion Heq; subst v'. simpl. rewrite Hx, Hy.
    destruct (exact_total o) as [b |]; [| discriminate].
    intros Hq. inversion Hq. f_equal. ring.
  - intros Ho. simpl. destruct v' as [x' | n a]; [| discriminate].
    destruct (Binary64.value x') as [a' |]; [| discriminate].
    destruct (exact_total o) as [b |] eqn:Eb; [| discriminate].
    intros Hq. inversion Hq. rewrite (IH b Ho eq_refl). f_equal. ring.
Qed.

(** Creating a property adds its number to the sum. *)
Lemma exact_total_store_new (k : string) (y : float) (o : JSObject.t (stored float))
  (q vy : Qc) :
  JSObject.own k o = None -> exact_total o = Some q -> Binary64.value y = Some vy ->
  exact_total (JSObject.store k (Amount y) o) = Some (Qcplus q vy).
Proof.
  intros Ho Hq Hy. revert q Ho Hq.
  induction o as [| [k' v'] o IH]; intros q; simpl.
  - intros _ Hq. inversion Hq. rewrite Hy. f_equal. ring.
  - destruct (String.eqb k' k); [discriminate |].
    intros Ho. simpl. destruct v' as [x' | n a]; [| discriminate].
    destruct (Binary64.value x') as [a' |]; [| discriminate].
    destruct (exact_total o) as [b |] eqn:Eb; [| discriminate].
    intros Hq. inversion Hq. rewrite (IH b Ho eq_refl). f_equal. ring.
Qed.

(** The loop keeps the sum of the totals equal to the running total, as
    long as its additions are exact. *)
Lemma fold_tally_exact (txs : list (transaction float)) (o : JSObject.t (stored float))
  (t : float) (q : Qc) :
  (forall x, In x txs -> inherited (category_key x) = false) ->
  exact_total o = Some q -> Binary64.value t = Some q ->
  additions_exact (o, t) txs = true ->
  exists q', exact_total (fst (fold_left tally txs (o, t))) = Some q'
             /\ Binary64.value (snd (fold_left tally txs (o, t))) = Some q'.
Proof.
  revert o t q. induction txs as [| x txs IH]; intros o t q Hp Ho Ht Hex.
  - now exists q.
  - assert (Hk : inherited (category_key x) = false) by (apply Hp; now left).
    assert (Hp' : forall y, In y txs -> inherited (category_key y) = false)
      by (intros y Hy; apply Hp; now right).
    cbn [additions_exact fst snd] in Hex.
    apply andb_prop in Hex. destruct Hex as [Hex Hrest].
    apply andb_prop in Hex. destruct Hex as [Hcat Htot].
    destruct (exact_sum_spec _ _ Htot) as (a & b & Ha & Hb & Hsum).
    rewrite Ht in Ha. inversion Ha; subst a. clear Ha.
    cbn [fold_left].
    apply (IH _ _ (Qcplus q b) Hp'); [| exact Hsum | exact Hrest].
    cbn [tally fst]. rewrite set_store by (now apply inherited_stored).
    destruct (JSObject.own (category_key x) o) as [[v | n l] |] eqn:Eown.
    + rewrite (plus_amount_plain _ o (Some v) (amount x) Hk Eown).
      unfold JSObject.get in Hcat. rewrite Eown in Hcat.
      destruct (exact_sum_spec _ _ Hcat) as (a' & b' & Ha' & Hb' & Hsum').
      rewrite Hb in Hb'. inversion Hb'; subst b'. clear Hb'.
      destruct (exact_total_own _ v o q Eown Ho) as [vv Hv].
      rewrite (value_or_zero v vv Hv) in Ha'. inversion Ha'; subst a'. clear Ha'.
      transitivity (Some (Qcplus (Qcminus q vv) (Qcplus vv b)));
        [exact (exact_total_store_old _ v _ o q vv (Qcplus vv b) Eown Ho Hv Hsum')
        | f_equal; ring].
    + unfold JSObject.get in Hcat. rewrite Eown in Hcat. discriminate.
    + rewrite (plus_amount_plain _ o None (amount x) Hk Eown).
      unfold JSObject.get in Hcat. rewrite Eown in Hcat.
      unfold inherited in Hk. apply orb_false_iff in Hk. destruct Hk as [Hk1 Hk2].
      rewrite Hk1, Hk2 in Hcat.
      destruct (exact_sum_spec _ _ Hcat) as (a' & b' & Ha' & Hb' & Hsum').
      rewrite Hb in Hb'. inversion Hb'; subst b'. clear Hb'.
      assert (Hz : Binary64.value (or_zero None) = Some (Q2Qc 0)) by reflexivity.
      rewrite Hz in Ha'. inversion Ha'; subst a'. clear Ha'.
      transitivity (Some (Qcplus q (Qcplus (Q2Qc 0) b)));
        [exact (exact_total_store_new _ _ o q (Qcplus (Q2Qc 0) b) Eown Ho Hsum')
        | f_equal; ring].
Qed.

(** C10, as amended. For every transaction list, each transaction adds its
    amount to the overall total, which is the binary64 sum of the amounts
    added from the left, and to the total of the category it belongs to:
    [category], else [category_name], else 'Other'.  The total of a category
    whose name no object inherits is the running binary64 sum of the amounts
    of its transactions, which starts again from zero after a total that is
    zero or NaN; when no category of the list goes by an inherited name,
    there is one total for each category of the list.  When, besides, every
    addition of the loop is computed without rounding, the totals of the
    categories add up exactly to the overall total. *)
Theorem exact_totals_partition_the_total :
  forall txs : list (transaction float),
    snd (category_totals txs) = sum_amounts txs
    /\ (forall c, inherited c = false ->
          JSObject.own c (fst (category_totals txs))
          = option_map Amount (accumulate None (of_category c txs)))
    /\ (forall t, In t txs -> category t = None -> category_name t = None ->
          category_key t = "Other" /\ In t (of_category "Other" txs))
    /\ (plain_categories txs ->
        map fst (fst (category_totals txs)) = first_seen (map category_key txs))
    /\ (plain_categories txs ->
        additions_exact (JSObject.empty, 0%float) txs = true ->
        exists q : Qc,
          exact_total (JSObject.entries (fst (category_totals txs))) = Some q
          /\ Binary64.value (snd (category_totals txs)) = Some q).
Proof.
  intros txs.
  split; [apply total_is_sum |].
  split; [intros c Hc; now apply totals_own |].
  split.
  { intros t Hin Hc Hn.
    assert (Hk : category_key t = "Other") by (unfold category_key; now rewrite Hc, Hn).
    split; [exact Hk |]. unfold of_category. apply filter_In.
    split; [exact Hin | now rewrite Hk]. }
  split; [apply totals_keys_plain |].
  intros Hp Hex.
  destruct (fold_tally_exact txs JSObject.empty 0%float (Q2Qc 0) Hp eq_refl eq_refl Hex)
    as (q & Hq & Ht).
  exists q. split; [| exact Ht].
  rewrite (exact_total_perm _ _ (entries_perm _)). exact Hq.
Qed.

Lemma exact_totals_partition_the_total_witness :
  map fst (fst (category_totals food_and_rent)) = ["Food"; "Rent"]
  /\ exists q : Qc,
       exact_total (JSObject.entries (fst (category_totals food_and_rent))) = Some q
       /\ Binary64.value (snd (category_totals food_and_rent)) = Some q.
Proof.
  assert (Hp : plain_categories food_and_rent)
    by (intros t [<- | [<- | []]]; reflexivity).
  pose proof (exact_totals_partition_the_total food_and_rent) as Hw.
  split.
  - exact (proj1 (proj2 (proj2 (proj2 Hw))) Hp).
  - apply (proj2 (proj2 (proj2 (proj2 Hw))) Hp). vm_compute. reflexivity.
Defined.

(** C10 as stated fails in binary64.  For 0.1 of A, then 0.2 and 0.3 of B,
    the total is 0.1 + 0.2 + 0.3 = 0.6000000000000001, the totals are 0.1
    and 0.5, and they sum to 0.6, in either order; as rationals, too, the
    two sides differ.  Two amounts that cancel to NaN restart the total of
    their category: after [1e999], [-1e999] and 5 it is 5, and the overall
    total is NaN.  A transaction of the category [__proto__] is added to the
    overall total and to no category. *)
Lemma binary64_totals_miss_the_total :
  (fst (category_totals dimes) = [("A", Amount 0.1%float); ("B", Amount 0.5%float)]
   /\ PrimFloat.eqb (snd (category_totals dimes)) (0.1 + 0.2 + 0.3)%float = true
   /\ PrimFloat.eqb (sum_values (fst (category_totals dimes)))
                    (snd (category_totals dimes)) = false
   /\ PrimFloat.eqb (0 + 0.5 + 0.1)%float (snd (category_totals dimes)) = false
   /\ Binary64.toString (snd (category_totals dimes)) = "0.6000000000000001"
   /\ Binary64.toString (sum_values (fst (category_totals dimes))) = "0.6"
   /\ exists a b : Qc,
        exact_total (JSObject.entries (fst (category_totals dimes))) = Some a
        /\ Binary64.value (snd (category_totals dimes)) = Some b
        /\ a <> b)
  /\ category_totals restarted = ([("A", Amount 5%float)], nan)
  /\ category_totals hidden = ([("Food", Amount 1%float)], 101%float).
Proof.
  split; [| split; vm_compute; reflexivity].
  do 6 (split; [vm_compute; reflexivity |]).
  eexists. eexists. split; [vm_compute; reflexivity |].
  split; [vm_compute; reflexivity |].
  intros Heq. apply (f_equal this) in Heq. vm_compute in Heq. discriminate.
Qed.
